(** * kilo.c: raw-mode terminal lifecycle

    A shallow embedding of [src/kilo.c]: the [termios] attribute block and the
    flag arithmetic of [enableRawMode], the process state threaded through
    [tcgetattr]/[tcsetattr]/[read]/[atexit]/[exit], and the main loop.

    Platform facts that the C file takes from system headers are fixed to
    Linux/glibc on x86-64: [tcflag_t] is a 32-bit unsigned integer, [cc_t] an
    unsigned byte, [char] is signed, [NCCS = 32], and the flag constants are
    those of <asm-generic/termbits.h>.  The source comment on line 72
    (ECHO = ...1000 in binary) agrees with these values. *)

From Stdlib Require Import ZArith List String Ascii Bool Lia.
From Stdlib Require Import Numbers.DecimalString.
From stdpp Require Import base list.

Import ListNotations.
Local Open Scope Z_scope.

(** ** The attribute block *)

Module Termios.

(** [tcflag_t]: unsigned 32-bit, every assignment wraps. *)
Definition u32 (z : Z) : Z := z mod 2 ^ 32.

(** c_iflag bits *)
Definition BRKINT : Z := 2.      (* 0000002 *)
Definition ICRNL  : Z := 256.    (* 0000400 *)
Definition INPCK  : Z := 16.     (* 0000020 *)
Definition ISTRIP : Z := 32.     (* 0000040 *)
Definition IXON   : Z := 1024.   (* 0002000 *)
(** c_oflag bits *)
Definition OPOST  : Z := 1.      (* 0000001 *)
(** c_cflag bits *)
Definition CSIZE  : Z := 48.     (* 0000060 *)
Definition CS8    : Z := 48.     (* 0000060 *)
(** c_lflag bits *)
Definition ISIG   : Z := 1.      (* 0000001 *)
Definition ICANON : Z := 2.      (* 0000002 *)
Definition ECHO   : Z := 8.      (* 0000010 *)
Definition IEXTEN : Z := 32768.  (* 0100000 *)
(** c_cc subscripts *)
Definition NCCS  : nat := 32.
Definition VTIME : nat := 5.
Definition VMIN  : nat := 6.

(** [struct termios] *)
Record termios : Type := mk_termios {
  c_iflag  : Z;
  c_oflag  : Z;
  c_cflag  : Z;
  c_lflag  : Z;
  c_line   : Z;
  c_cc     : list Z;
  c_ispeed : Z;
  c_ospeed : Z
}.

Definition is_u32 (z : Z) : bool := (0 <=? z) && (z <? 2 ^ 32).
Definition is_cc (z : Z) : bool := (0 <=? z) && (z <? 256).

(** The values a C object of type [struct termios] can hold. *)
Definition termios_wf (t : termios) : bool :=
  is_u32 (c_iflag t) && is_u32 (c_oflag t) && is_u32 (c_cflag t) &&
  is_u32 (c_lflag t) && is_cc (c_line t) &&
  (length (c_cc t) =? NCCS)%nat && forallb is_cc (c_cc t) &&
  is_u32 (c_ispeed t) && is_u32 (c_ospeed t).

(** A zero-initialised object, as a global without initialiser is (line 7). *)
Definition termios_zero : termios :=
  mk_termios 0 0 0 0 0 (repeat 0 NCCS) 0 0.

(** [f &= ~(m)]: the mask is an [int], converted to unsigned for the [&]. *)
Definition and_not (f m : Z) : Z := u32 (Z.land f (u32 (Z.lnot m))).
(** [f |= (m)] *)
Definition or_in (f m : Z) : Z := u32 (Z.lor f m).

(** Field assignment [t.f = v]. *)
Definition set_c_iflag (v : Z) (t : termios) : termios :=
  mk_termios v (c_oflag t) (c_cflag t) (c_lflag t)
             (c_line t) (c_cc t) (c_ispeed t) (c_ospeed t).
Definition set_c_oflag (v : Z) (t : termios) : termios :=
  mk_termios (c_iflag t) v (c_cflag t) (c_lflag t)
             (c_line t) (c_cc t) (c_ispeed t) (c_ospeed t).
Definition set_c_cflag (v : Z) (t : termios) : termios :=
  mk_termios (c_iflag t) (c_oflag t) v (c_lflag t)
             (c_line t) (c_cc t) (c_ispeed t) (c_ospeed t).
Definition set_c_lflag (v : Z) (t : termios) : termios :=
  mk_termios (c_iflag t) (c_oflag t) (c_cflag t) v
             (c_line t) (c_cc t) (c_ispeed t) (c_ospeed t).
(** [t.c_cc[i] = v]; the subscripts used are below [NCCS]. *)
Definition set_c_cc (i : nat) (v : Z) (t : termios) : termios :=
  mk_termios (c_iflag t) (c_oflag t) (c_cflag t) (c_lflag t)
             (c_line t) (<[i := v]> (c_cc t)) (c_ispeed t) (c_ospeed t).

(** Lines 39 and 87-92 of [enableRawMode]: the local [raw], built from a
    copy of [orig_termios]. *)
Definition raw_termios (orig : termios) : termios :=
  let raw := orig in
  let raw := set_c_iflag
    (and_not (c_iflag raw)
       (Z.lor (Z.lor (Z.lor (Z.lor BRKINT ICRNL) INPCK) ISTRIP) IXON)) raw in
  let raw := set_c_oflag (and_not (c_oflag raw) OPOST) raw in
  let raw := set_c_cflag (or_in (c_cflag raw) CS8) raw in
  let raw := set_c_lflag
    (and_not (c_lflag raw)
       (Z.lor (Z.lor (Z.lor ECHO ICANON) IEXTEN) ISIG)) raw in
  let raw := set_c_cc VMIN 0 raw in
  let raw := set_c_cc VTIME 1 raw in
  raw.

(** The named settings of the specification, read off the bit layout. *)
Definition flag_on (f m : Z) : bool := negb (Z.land f m =? 0).

Definition echo_enabled       (t : termios) := flag_on (c_lflag t) ECHO.
Definition canonical_enabled  (t : termios) := flag_on (c_lflag t) ICANON.
Definition signals_enabled    (t : termios) := flag_on (c_lflag t) ISIG.
Definition extended_enabled   (t : termios) := flag_on (c_lflag t) IEXTEN.
Definition flow_control_enabled (t : termios) := flag_on (c_iflag t) IXON.
Definition crnl_enabled       (t : termios) := flag_on (c_iflag t) ICRNL.
Definition parity_check_enabled (t : termios) := flag_on (c_iflag t) INPCK.
Definition strip_enabled      (t : termios) := flag_on (c_iflag t) ISTRIP.
Definition break_int_enabled  (t : termios) := flag_on (c_iflag t) BRKINT.
Definition post_enabled       (t : termios) := flag_on (c_oflag t) OPOST.
(** Bits per character: CS5 = 0, CS6 = 020, CS7 = 040, CS8 = 060. *)
Definition char_size (t : termios) : Z := 5 + Z.shiftr (Z.land (c_cflag t) CSIZE) 4.
Definition min_bytes (t : termios) : option Z := c_cc t !! VMIN.
Definition read_timeout (t : termios) : option Z := c_cc t !! VTIME.

End Termios.
Import Termios.

(** A typical cooked configuration of a Linux pseudo-terminal. *)
Definition cooked : termios :=
  mk_termios 17666 5 191 35387 0
    [3; 28; 127; 21; 4; 0; 1; 0; 17; 19; 26; 0; 18; 15; 23; 22;
     0; 0; 0; 0; 0; 0; 0; 0; 0; 0; 0; 0; 0; 0; 0; 0] 15 15.

(** ** The process and its environment *)

(** What one [read(STDIN_FILENO, &c, 1)] meets. *)
Inductive stdin_event : Type :=
| InByte (b : Byte.byte)   (* a byte is delivered, read returns 1 *)
| InTimeout                (* VTIME expired with no data, read returns 0 *)
| InEof                    (* end of file, read returns 0 *)
| InError (err : Z)        (* read returns -1 and sets errno *)
| InSignal (sig : Z).      (* a signal whose action is to terminate arrives
                              while the process waits in read *)

(** The environment decides the outcome of each system call: [None] is
    success, [Some err] is failure with that errno.  [tcsetattr_err n] is for
    the n-th call of [tcsetattr] (from 0), [stdin n] for the n-th [read]. *)
Record env : Type := mk_env {
  tcgetattr_err : option Z;
  tcsetattr_err : nat -> option Z;
  stdin : nat -> stdin_event
}.

(** Functions that are passed to [atexit]. *)
Inductive handler : Type := fn_disableRawMode.

(** The calls a run makes, as seen from outside the process. *)
Inductive event : Type :=
| EvTcgetattr (ok : bool)                (* tcgetattr(0, _) and whether it succeeded *)
| EvAtexit (h : handler)                 (* atexit(h) *)
| EvTcsetattr (a : termios) (ok : bool)  (* tcsetattr(0, TCSAFLUSH, &a) *)
| EvRead (r : stdin_event)               (* read(0, _, 1) and what it met *)
| EvPrintf (out : string)                (* the text given to standard output *)
| EvPerror (s : string) (err : Z).       (* perror(s) with errno = err: the line
                                            "s: <message of err>" on standard error *)

Record state : Type := mk_state {
  tty : termios;            (* attributes the kernel holds for fd 0 *)
  orig_termios : termios;   (* the global of line 7 *)
  handlers : list handler;  (* registered with atexit, latest first *)
  errno : Z;
  n_set : nat;              (* calls of tcsetattr made so far *)
  n_read : nat;             (* calls of read made so far *)
  trace : list event        (* library and system calls, in program order *)
}.

Definition initial_state (tty0 : termios) : state :=
  mk_state tty0 termios_zero [] 0 0 0 [].

Definition log (ev : event) (s : state) : state :=
  mk_state (tty s) (orig_termios s) (handlers s) (errno s)
           (n_set s) (n_read s) (trace s ++ [ev]).
Definition set_tty (a : termios) (s : state) : state :=
  mk_state a (orig_termios s) (handlers s) (errno s)
           (n_set s) (n_read s) (trace s).
Definition set_orig_termios (a : termios) (s : state) : state :=
  mk_state (tty s) a (handlers s) (errno s) (n_set s) (n_read s) (trace s).
Definition set_handlers (hs : list handler) (s : state) : state :=
  mk_state (tty s) (orig_termios s) hs (errno s)
           (n_set s) (n_read s) (trace s).
Definition set_errno (err : Z) (s : state) : state :=
  mk_state (tty s) (orig_termios s) (handlers s) err
           (n_set s) (n_read s) (trace s).
Definition count_set (s : state) : state :=
  mk_state (tty s) (orig_termios s) (handlers s) (errno s)
           (S (n_set s)) (n_read s) (trace s).
Definition count_read (s : state) : state :=
  mk_state (tty s) (orig_termios s) (handlers s) (errno s)
           (n_set s) (S (n_read s)) (trace s).

(** A C function either returns, calls [exit], or the process is killed. *)
Inductive res (A : Type) : Type :=
| Ret (a : A) (s : state)
| Exit (code : Z) (s : state)
| Kill (sig : Z) (s : state).
Arguments Ret {A} a s.
Arguments Exit {A} code s.
Arguments Kill {A} sig s.

Definition M (A : Type) : Type := state -> res A.

Definition ret {A} (a : A) : M A := fun s => Ret a s.
Definition bind {A B} (m : M A) (k : A -> M B) : M B :=
  fun s => match m s with
           | Ret a s' => k a s'
           | Exit code s' => Exit code s'
           | Kill sig s' => Kill sig s'
           end.
Definition gets {A} (f : state -> A) : M A := fun s => Ret (f s) s.

Declare Scope proc_scope.
Delimit Scope proc_scope with proc.
Notation "x <- c ;; k" := (bind c (fun x => k))
  (at level 100, c at next level, right associativity) : proc_scope.
Notation "c ;; k" := (bind c (fun _ => k))
  (at level 100, right associativity) : proc_scope.
Local Open Scope proc_scope.

(** [if (cond) stmt;] *)
Definition when (b : bool) (m : M unit) : M unit := if b then m else ret tt.

(** *** Library and system calls *)

(** [tcgetattr(STDIN_FILENO, p)]: [store] stands for the pointer [p].  On
    failure the object pointed to is left as it was. *)
Definition tcgetattr (e : env) (store : termios -> state -> state) : M Z :=
  fun s => match tcgetattr_err e with
           | None => Ret 0 (log (EvTcgetattr true) (store (tty s) s))
           | Some err => Ret (-1) (log (EvTcgetattr false) (set_errno err s))
           end.

(** [tcsetattr(STDIN_FILENO, TCSAFLUSH, &a)] *)
Definition tcsetattr (e : env) (a : termios) : M Z :=
  fun s => match tcsetattr_err e (n_set s) with
           | None => Ret 0 (log (EvTcsetattr a true) (count_set (set_tty a s)))
           | Some err =>
               Ret (-1) (log (EvTcsetattr a false) (count_set (set_errno err s)))
           end.

(** [atexit(h)] *)
Definition atexit (h : handler) : M Z :=
  fun s => Ret 0 (log (EvAtexit h) (set_handlers (h :: handlers s) s)).

Definition perror (msg : string) : M unit :=
  fun s => Ret tt (log (EvPerror msg (errno s)) s).

(** [exit(code)] as seen from the calling function: it does not return. *)
Definition exit {A} (code : Z) : M A := fun s => Exit code s.

Definition printf (out : string) : M Z :=
  fun s => Ret (Z.of_nat (String.length out)) (log (EvPrintf out) s).

(** The value of a [char] (signed) holding byte [b]. *)
Definition char_of_byte (b : Byte.byte) : Z :=
  let n := Z.of_N (Byte.to_N b) in if n <? 128 then n else n - 256.

(** [read(STDIN_FILENO, &c, 1)]: returns the result of the call and the
    content of the one-byte buffer afterwards. *)
Definition read (e : env) (c : Z) : M (Z * Z) :=
  fun s =>
    let r := stdin e (n_read s) in
    let s' := log (EvRead r) (count_read s) in
    match r with
    | InByte b => Ret (1, char_of_byte b) s'
    | InTimeout => Ret (0, c) s'
    | InEof => Ret (0, c) s'
    | InError err => Ret (-1, c) (set_errno err s')
    | InSignal sig => Kill sig s'
    end.

(** [iscntrl] in the C locale. *)
Definition iscntrl (c : Z) : bool := ((0 <=? c) && (c <? 32)) || (c =? 127).

Definition CRLF : string := String "013" (String "010" EmptyString).
(** [%d] *)
Definition fmt_d (c : Z) : string := NilZero.string_of_int (Z.to_int c).
(** [%c]: the argument converted to [unsigned char]. *)
Definition fmt_c (c : Z) : string :=
  String (ascii_of_N (Z.to_N (c mod 256))) EmptyString.

(** *** The functions of kilo.c *)

(** Lines 9-12. *)
Definition die {A} (msg : string) : M A :=
  perror msg ;; exit 1.

(** Lines 14-18. *)
Definition disableRawMode (e : env) : M unit :=
  orig <- gets orig_termios ;;
  r <- tcsetattr e orig ;;
  when (r =? -1) (die "tcsetattr").

(** Lines 29-99. *)
Definition enableRawMode (e : env) : M unit :=
  r <- tcgetattr e set_orig_termios ;;
  when (r =? -1) (die "tcgetattr") ;;
  atexit fn_disableRawMode ;;
  orig <- gets orig_termios ;;
  let raw := raw_termios orig in
  r <- tcsetattr e raw ;;
  when (r =? -1) (die "tcsetattr").

(** Lines 105-116: one turn of the loop; [true] stands for [break]. *)
Definition loop_body (e : env) : M bool :=
  let c := 0 in
  rc <- read e c ;;
  let c := snd rc in
  (if iscntrl c
   then printf (fmt_d c ++ CRLF)
   else printf (fmt_d c ++ " ('" ++ fmt_c c ++ "')" ++ CRLF)) ;;
  ret (c =? 113).

(** Lines 104-117.  The loop has no bound of its own: [fuel] bounds the
    number of turns, and [None] means that more turns are needed. *)
Fixpoint main_loop (e : env) (fuel : nat) (s : state) : option (res unit) :=
  match fuel with
  | O => None
  | S n =>
      match loop_body e s with
      | Ret true s' => Some (Ret tt s')
      | Ret false s' => main_loop e n s'
      | Exit code s' => Some (Exit code s')
      | Kill sig s' => Some (Kill sig s')
      end
  end.

(** Lines 101-120. *)
Definition main (e : env) (fuel : nat) (s : state) : option (res Z) :=
  match enableRawMode e s with
  | Ret _ s1 =>
      match main_loop e fuel s1 with
      | None => None
      | Some (Ret _ s2) => Some (Ret 0 s2)
      | Some (Exit code s2) => Some (Exit code s2)
      | Some (Kill sig s2) => Some (Kill sig s2)
      end
  | Exit code s1 => Some (Exit code s1)
  | Kill sig s1 => Some (Kill sig s1)
  end.

(** *** Process termination *)

Inductive outcome : Type :=
| Exited (code : Z)
| Killed (sig : Z).

Definition call_handler (e : env) (h : handler) : M unit :=
  match h with
  | fn_disableRawMode => disableRawMode e
  end.

(** [exit] runs the registered functions, latest first, each taken off the
    list before it is called, and then ends the process.  A function that
    itself calls [exit] (as [die] does) makes glibc go on with the functions
    that remain and end the process with the new status.  A signal is
    abnormal termination: nothing registered is run. *)
Fixpoint run_exit_handlers (e : env) (hs : list handler) (code : Z)
         (s : state) : outcome * state :=
  match hs with
  | [] => (Exited code, s)
  | h :: hs' =>
      match call_handler e h (set_handlers hs' s) with
      | Ret _ s' => run_exit_handlers e hs' code s'
      | Exit code' s' => run_exit_handlers e hs' code' s'
      | Kill sig s' => (Killed sig, s')
      end
  end.

Definition do_exit (e : env) (code : Z) (s : state) : outcome * state :=
  run_exit_handlers e (handlers s) code s.

(** The whole process, started on a terminal whose attributes are [tty0].
    Returning from [main] is [exit] with the returned value. *)
Definition run (e : env) (fuel : nat) (tty0 : termios)
  : option (outcome * state) :=
  match main e fuel (initial_state tty0) with
  | None => None
  | Some (Ret code s) => Some (do_exit e code s)
  | Some (Exit code s) => Some (do_exit e code s)
  | Some (Kill sig s) => Some (Killed sig, s)
  end.

Definition env_ok (input : nat -> stdin_event) : env :=
  mk_env None (fun _ => None) input.
Definition type_aq (n : nat) : stdin_event :=
  match n with
  | O => InByte Byte.x61
  | 1%nat => InTimeout
  | _ => InByte Byte.x71
  end.

(** ** Bit-level facts about the flag arithmetic *)

Section Bits.

Lemma testbit_u32 (z i : Z) :
  0 <= i -> Z.testbit (u32 z) i = (i <? 32) && Z.testbit z i.
Proof.
  intros Hi. unfold u32.
  destruct (Z.ltb_spec i 32) as [Hlt | Hge]; cbn [andb].
  - apply Z.mod_pow2_bits_low; lia.
  - apply Z.mod_pow2_bits_high; lia.
Qed.

Lemma is_u32_range (z : Z) : is_u32 z = true <-> 0 <= z < 2 ^ 32.
Proof. unfold is_u32. rewrite andb_true_iff, Z.leb_le, Z.ltb_lt. tauto. Qed.

Lemma u32_high_bits (z i : Z) :
  is_u32 z = true -> 32 <= i -> Z.testbit z i = false.
Proof.
  intros Hz Hi. apply is_u32_range in Hz.
  rewrite <- (Z.mod_small z (2 ^ 32)) by lia.
  apply Z.mod_pow2_bits_high; lia.
Qed.

Lemma testbit_and_not (f m i : Z) :
  0 <= i ->
  Z.testbit (and_not f m) i = (i <? 32) && Z.testbit f i && negb (Z.testbit m i).
Proof.
  intros Hi. unfold and_not.
  rewrite testbit_u32, Z.land_spec, testbit_u32, Z.lnot_spec by lia.
  destruct (i <? 32), (Z.testbit f i), (Z.testbit m i); reflexivity.
Qed.

Lemma testbit_or_in (f m i : Z) :
  0 <= i ->
  Z.testbit (or_in f m) i = (i <? 32) && (Z.testbit f i || Z.testbit m i).
Proof.
  intros Hi. unfold or_in. now rewrite testbit_u32, Z.lor_spec by lia.
Qed.

(** Clearing a mask switches off every flag inside the mask. *)
Lemma flag_off_and_not (f m k : Z) :
  Z.land k m = k -> flag_on (and_not f m) k = false.
Proof.
  intros Hk. unfold flag_on.
  apply negb_false_iff, Z.eqb_eq, Z.bits_inj'. intros i Hi.
  rewrite Z.bits_0, Z.land_spec, testbit_and_not by lia.
  rewrite <- Hk, Z.land_spec.
  destruct (i <? 32), (Z.testbit f i), (Z.testbit m i), (Z.testbit k i);
    reflexivity.
Qed.

(** ... and leaves every bit outside the mask as it was. *)
Lemma and_not_outside (f m i : Z) :
  is_u32 f = true -> 0 <= i -> Z.testbit m i = false ->
  Z.testbit (and_not f m) i = Z.testbit f i.
Proof.
  intros Hf Hi Hm. rewrite testbit_and_not, Hm by lia.
  destruct (Z.ltb_spec i 32) as [Hlt | Hge]; cbn [andb negb].
  - now rewrite andb_true_r.
  - symmetry. now apply u32_high_bits.
Qed.

Lemma or_in_outside (f m i : Z) :
  is_u32 f = true -> 0 <= i -> Z.testbit m i = false ->
  Z.testbit (or_in f m) i = Z.testbit f i.
Proof.
  intros Hf Hi Hm. rewrite testbit_or_in, Hm, orb_false_r by lia.
  destruct (Z.ltb_spec i 32) as [Hlt | Hge]; cbn [andb]; [reflexivity|].
  symmetry. now apply u32_high_bits.
Qed.

Lemma or_in_inside (f m : Z) :
  is_u32 m = true -> Z.land (or_in f m) m = m.
Proof.
  intros Hm. apply Z.bits_inj'. intros i Hi.
  rewrite Z.land_spec, testbit_or_in by lia.
  destruct (Z.ltb_spec i 32) as [Hlt | Hge]; cbn [andb].
  - destruct (Z.testbit f i), (Z.testbit m i); reflexivity.
  - symmetry. now apply u32_high_bits.
Qed.

End Bits.

(** ** The raw configuration (lines 39, 87-92) *)

(** Bits of [f'] outside the mask [m] are those of [f]. *)
Definition unchanged_outside (m f f' : Z) : Prop :=
  forall i, 0 <= i -> Z.testbit m i = false -> Z.testbit f' i = Z.testbit f i.

(** The settings a raw configuration is required to have. *)
Definition raw_settings (t : termios) : Prop :=
  echo_enabled t = false /\ canonical_enabled t = false /\
  signals_enabled t = false /\ flow_control_enabled t = false /\
  extended_enabled t = false /\ crnl_enabled t = false /\
  post_enabled t = false /\ parity_check_enabled t = false /\
  strip_enabled t = false /\
  char_size t = 8 /\ min_bytes t = Some 0 /\ read_timeout t = Some 1.

(** Everything of [A] outside the named settings is found again in [t];
    [iflag_mask] is the set of input flags that count as named. *)
Definition carried_over (iflag_mask : Z) (A t : termios) : Prop :=
  unchanged_outside iflag_mask (c_iflag A) (c_iflag t) /\
  unchanged_outside OPOST (c_oflag A) (c_oflag t) /\
  unchanged_outside CSIZE (c_cflag A) (c_cflag t) /\
  unchanged_outside (Z.lor (Z.lor (Z.lor ECHO ICANON) IEXTEN) ISIG)
                    (c_lflag A) (c_lflag t) /\
  c_line t = c_line A /\
  length (c_cc t) = length (c_cc A) /\
  (forall j : nat, j <> VMIN -> j <> VTIME -> c_cc t !! j = c_cc A !! j) /\
  c_ispeed t = c_ispeed A /\ c_ospeed t = c_ospeed A.

(** The input flags the specification names: CR-to-NL translation, parity
    checking, high-bit stripping and software flow control. *)
Definition named_iflags : Z := Z.lor (Z.lor (Z.lor ICRNL INPCK) ISTRIP) IXON.
(** The input flags line 87 clears. *)
Definition cleared_iflags : Z :=
  Z.lor (Z.lor (Z.lor (Z.lor BRKINT ICRNL) INPCK) ISTRIP) IXON.

Lemma termios_wf_fields (A : termios) :
  termios_wf A = true ->
  is_u32 (c_iflag A) = true /\ is_u32 (c_oflag A) = true /\
  is_u32 (c_cflag A) = true /\ is_u32 (c_lflag A) = true /\
  length (c_cc A) = NCCS.
Proof.
  unfold termios_wf. rewrite !andb_true_iff, Nat.eqb_eq. tauto.
Qed.

Lemma raw_termios_settings (A : termios) :
  termios_wf A = true -> raw_settings (raw_termios A).
Proof.
  intros Hwf. apply termios_wf_fields in Hwf as (_ & _ & _ & _ & Hlen).
  unfold raw_settings, echo_enabled, canonical_enabled, signals_enabled,
    flow_control_enabled, extended_enabled, crnl_enabled, post_enabled,
    parity_check_enabled, strip_enabled, char_size, min_bytes, read_timeout.
  cbn [raw_termios set_c_iflag set_c_oflag set_c_cflag set_c_lflag set_c_cc
       c_iflag c_oflag c_cflag c_lflag c_cc].
  repeat match goal with
         | |- _ /\ _ => split
         | |- flag_on (and_not _ _) _ = false =>
             apply flag_off_and_not; reflexivity
         end.
  - change CSIZE with CS8. rewrite or_in_inside by reflexivity. reflexivity.
  - rewrite list_lookup_insert_ne by (unfold VTIME, VMIN; lia).
    apply list_lookup_insert_eq. rewrite Hlen. unfold VMIN, NCCS. lia.
  - apply list_lookup_insert_eq. rewrite length_insert, Hlen.
    unfold VTIME, NCCS. lia.
Qed.

Lemma raw_termios_carried_over (A : termios) :
  termios_wf A = true -> carried_over cleared_iflags A (raw_termios A).
Proof.
  intros Hwf. apply termios_wf_fields in Hwf as (Hi & Ho & Hc & Hl & _).
  unfold carried_over, unchanged_outside.
  cbn [raw_termios set_c_iflag set_c_oflag set_c_cflag set_c_lflag set_c_cc
       c_iflag c_oflag c_cflag c_lflag c_cc c_line c_ispeed c_ospeed].
  repeat split.
  - intros i H0 Hm. now apply and_not_outside.
  - intros i H0 Hm. now apply and_not_outside.
  - intros i H0 Hm. now apply or_in_outside.
  - intros i H0 Hm. now apply and_not_outside.
  - now rewrite !length_insert.
  - intros j Hmin Htime.
    rewrite list_lookup_insert_ne by congruence.
    now rewrite list_lookup_insert_ne by congruence.
Qed.

(** C2, as amended: for every attribute block [A], the raw configuration
    built from [A] has echo, canonical buffering, signal generation, software
    flow control, extended input processing, CR-to-NL translation, output
    post-processing, parity checking, high-bit stripping and also the
    break-to-interrupt flag BRKINT disabled, character size 8, VMIN = 0 and
    VTIME = 1, and every other bit and field is the one of [A]. *)
Theorem raw_termios_spec (A : termios) :
  termios_wf A = true ->
  raw_settings (raw_termios A) /\
  break_int_enabled (raw_termios A) = false /\
  carried_over cleared_iflags A (raw_termios A).
Proof.
  intros Hwf. split; [|split].
  - now apply raw_termios_settings.
  - unfold break_int_enabled. cbn. apply flag_off_and_not. reflexivity.
  - now apply raw_termios_carried_over.
Qed.

Lemma raw_termios_spec_cooked :
  termios_wf cooked = true /\
  raw_settings (raw_termios cooked) /\
  break_int_enabled (raw_termios cooked) = false /\
  carried_over cleared_iflags cooked (raw_termios cooked).
Proof.
  split; [reflexivity | apply (raw_termios_spec cooked); reflexivity].
Defined.

(** C2 as written fails: BRKINT is none of the settings the claim names, it
    is set in [cooked], and it is cleared in the raw configuration, so not
    every other field is carried over. *)
Lemma raw_termios_clears_brkint :
  termios_wf cooked = true /\
  Z.testbit named_iflags 1 = false /\
  break_int_enabled cooked = true /\
  break_int_enabled (raw_termios cooked) = false /\
  ~ carried_over named_iflags cooked (raw_termios cooked).
Proof.
  repeat split; try reflexivity.
  intros (Hi & _). specialize (Hi 1 ltac:(lia) eq_refl).
  vm_compute in Hi. discriminate.
Qed.

(** ** Facts about the functions of kilo.c *)

(** The state a result carries. *)
Definition state_of {A} (r : res A) : state :=
  match r with
  | Ret _ s => s
  | Exit _ s => s
  | Kill _ s => s
  end.

(** What the terminal side of two states has in common. *)
Definition same_terminal (s s' : state) : Prop :=
  tty s' = tty s /\ orig_termios s' = orig_termios s /\
  handlers s' = handlers s /\ n_set s' = n_set s.

(** The content of [c] after lines 105-106, by what the read met. *)
Definition char_read (r : stdin_event) : Z :=
  match r with
  | InByte b => char_of_byte b
  | _ => 0
  end.

(** The line printed by lines 108-112 for a given [c]. *)
Definition line_of (c : Z) : string :=
  if iscntrl c
  then fmt_d c ++ CRLF
  else fmt_d c ++ " ('" ++ fmt_c c ++ "')" ++ CRLF.

Definition is_signal (r : stdin_event) : bool :=
  match r with InSignal _ => true | _ => false end.

Definition is_quit (r : stdin_event) : bool := char_read r =? 113.

Ltac unfold_proc :=
  unfold enableRawMode, disableRawMode, loop_body, die, when, perror, exit,
    printf, read, atexit, tcsetattr, tcgetattr, gets, bind, ret.

Lemma same_terminal_refl (s : state) : same_terminal s s.
Proof. now repeat split. Qed.

Lemma same_terminal_trans (s1 s2 s3 : state) :
  same_terminal s1 s2 -> same_terminal s2 s3 -> same_terminal s1 s3.
Proof. unfold same_terminal. intuition congruence. Qed.

Lemma char_of_byte_quit (b : Byte.byte) :
  char_of_byte b = 113 <-> b = Byte.x71.
Proof.
  split; [| intros ->; reflexivity].
  destruct b; vm_compute; intros H; try reflexivity; discriminate H.
Qed.

Lemma is_quit_iff (r : stdin_event) :
  is_quit r = true <-> r = InByte Byte.x71.
Proof.
  unfold is_quit. rewrite Z.eqb_eq. split.
  - destruct r as [b | | | err | sig]; cbn; try discriminate.
    intros H. apply char_of_byte_quit in H. now subst.
  - intros ->. reflexivity.
Qed.

(** *** enableRawMode *)

Lemma enableRawMode_capture_fails (e : env) (s : state) (err : Z) :
  tcgetattr_err e = Some err ->
  exists s',
    enableRawMode e s = Exit 1 s' /\
    same_terminal s s' /\ n_read s' = n_read s /\
    trace s' = trace s ++ [EvTcgetattr false; EvPerror "tcgetattr" err].
Proof.
  intros He. unfold_proc. rewrite He. cbn.
  eexists. split; [reflexivity|]. cbn.
  split; [now repeat split|]. split; [reflexivity|].
  now rewrite <- app_assoc.
Qed.

Lemma enableRawMode_apply_fails (e : env) (s : state) (err : Z) :
  tcgetattr_err e = None -> tcsetattr_err e (n_set s) = Some err ->
  exists s',
    enableRawMode e s = Exit 1 s' /\
    tty s' = tty s /\ orig_termios s' = tty s /\
    handlers s' = fn_disableRawMode :: handlers s /\
    n_set s' = S (n_set s) /\ n_read s' = n_read s /\
    trace s' = trace s ++ [EvTcgetattr true; EvAtexit fn_disableRawMode;
                            EvTcsetattr (raw_termios (tty s)) false;
                            EvPerror "tcsetattr" err].
Proof.
  intros Hg Hs. unfold_proc. rewrite Hg. cbn. rewrite Hs. cbn.
  eexists. split; [reflexivity|]. cbn.
  repeat split. now rewrite <- !app_assoc.
Qed.

Lemma enableRawMode_succeeds (e : env) (s : state) :
  tcgetattr_err e = None -> tcsetattr_err e (n_set s) = None ->
  exists s',
    enableRawMode e s = Ret tt s' /\
    tty s' = raw_termios (tty s) /\ orig_termios s' = tty s /\
    handlers s' = fn_disableRawMode :: handlers s /\
    n_set s' = S (n_set s) /\ n_read s' = n_read s /\
    trace s' = trace s ++ [EvTcgetattr true; EvAtexit fn_disableRawMode;
                            EvTcsetattr (raw_termios (tty s)) true].
Proof.
  intros Hg Hs. unfold_proc. rewrite Hg. cbn. rewrite Hs. cbn.
  eexists. split; [reflexivity|]. cbn.
  repeat split. now rewrite <- !app_assoc.
Qed.

(** *** disableRawMode *)

Lemma disableRawMode_succeeds (e : env) (s : state) :
  tcsetattr_err e (n_set s) = None ->
  exists s',
    disableRawMode e s = Ret tt s' /\
    tty s' = orig_termios s /\ orig_termios s' = orig_termios s /\
    handlers s' = handlers s /\ n_set s' = S (n_set s) /\
    n_read s' = n_read s /\
    trace s' = trace s ++ [EvTcsetattr (orig_termios s) true].
Proof.
  intros Hs. unfold_proc. cbn. rewrite Hs. cbn.
  eexists. split; [reflexivity|]. cbn. now repeat split.
Qed.

Lemma disableRawMode_fails (e : env) (s : state) (err : Z) :
  tcsetattr_err e (n_set s) = Some err ->
  exists s',
    disableRawMode e s = Exit 1 s' /\
    tty s' = tty s /\ orig_termios s' = orig_termios s /\
    handlers s' = handlers s /\ n_set s' = S (n_set s) /\
    n_read s' = n_read s /\
    trace s' = trace s ++ [EvTcsetattr (orig_termios s) false;
                            EvPerror "tcsetattr" err].
Proof.
  intros Hs. unfold_proc. cbn. rewrite Hs. cbn.
  eexists. split; [reflexivity|]. cbn.
  repeat split. now rewrite <- !app_assoc.
Qed.

(** *** The loop *)

Lemma loop_body_signal (e : env) (s : state) (sig : Z) :
  stdin e (n_read s) = InSignal sig ->
  exists s',
    loop_body e s = Kill sig s' /\ same_terminal s s' /\
    n_read s' = S (n_read s) /\
    trace s' = trace s ++ [EvRead (InSignal sig)].
Proof.
  intros Hr. unfold_proc. rewrite Hr. cbn.
  eexists. split; [reflexivity|]. cbn.
  split; [now repeat split | now split].
Qed.

Lemma loop_body_returns (e : env) (s : state) :
  is_signal (stdin e (n_read s)) = false ->
  exists s',
    loop_body e s = Ret (is_quit (stdin e (n_read s))) s' /\
    same_terminal s s' /\ n_read s' = S (n_read s) /\
    trace s' = trace s ++ [EvRead (stdin e (n_read s));
                            EvPrintf (line_of (char_read (stdin e (n_read s))))].
Proof.
  intros Hr. unfold_proc. unfold is_quit, line_of.
  destruct (stdin e (n_read s)) as [b | | | err | sig] eqn:E;
    try discriminate Hr; cbn [char_read snd];
    match goal with
    | |- context [iscntrl ?c] => destruct (iscntrl c)
    end;
    (eexists; split; [reflexivity|]; cbn;
     split; [now repeat split|]; split; [reflexivity|];
     now rewrite <- !app_assoc).
Qed.

Definition is_io (ev : event) : bool :=
  match ev with
  | EvRead _ | EvPrintf _ => true
  | _ => false
  end.

(** Reads [n], [n+1], ..., [n+k-1] neither deliver the quit byte nor a
    signal. *)
Definition keeps_looping (e : env) (n k : nat) : Prop :=
  forall j : nat, (j < k)%nat ->
    is_quit (stdin e (n + j)) = false /\ is_signal (stdin e (n + j)) = false.

Lemma keeps_looping_shift (e : env) (n k : nat) :
  is_quit (stdin e n) = false -> is_signal (stdin e n) = false ->
  keeps_looping e (S n) k -> keeps_looping e n (S k).
Proof.
  intros Hq Hs Hk [| j] Hj.
  - rewrite Nat.add_0_r. now split.
  - replace (n + S j)%nat with (S n + j)%nat by lia. apply Hk. lia.
Qed.

Lemma keeps_looping_tail (e : env) (n k : nat) :
  keeps_looping e n (S k) ->
  is_quit (stdin e n) = false /\ is_signal (stdin e n) = false /\
  keeps_looping e (S n) k.
Proof.
  intros Hk. pose proof (Hk 0%nat ltac:(lia)) as H0.
  rewrite Nat.add_0_r in H0. destruct H0 as [Hq Hs].
  repeat split; try assumption;
    replace (S n + j)%nat with (n + S j)%nat by lia; apply Hk; lia.
Qed.

(** How the loop can end, and what it has done by then. *)
Definition loop_end (e : env) (s : state) (k : nat) (evs : list event)
           (r : res unit) : Prop :=
  match r with
  | Ret _ _ =>
      stdin e (n_read s + k) = InByte Byte.x71 /\
      exists evs', evs = evs' ++ [EvRead (InByte Byte.x71); EvPrintf (line_of 113)]
  | Kill sig _ =>
      stdin e (n_read s + k) = InSignal sig /\
      exists evs', evs = evs' ++ [EvRead (InSignal sig)]
  | Exit _ _ => False
  end.

Lemma main_loop_sound (e : env) (fuel : nat) :
  forall (s : state) (r : res unit),
    main_loop e fuel s = Some r ->
    exists (k : nat) (evs : list event),
      (k < fuel)%nat /\
      same_terminal s (state_of r) /\
      n_read (state_of r) = (n_read s + S k)%nat /\
      trace (state_of r) = trace s ++ evs /\ forallb is_io evs = true /\
      keeps_looping e (n_read s) k /\
      loop_end e s k evs r.
Proof.
  induction fuel as [| n IH]; intros s r Hrun; [discriminate Hrun|].
  cbn [main_loop] in Hrun.
  destruct (is_signal (stdin e (n_read s))) eqn:Hsig.
  - destruct (stdin e (n_read s)) as [b | | | err | sig] eqn:Hin;
      try discriminate Hsig.
    destruct (loop_body_signal e s sig Hin) as (s' & Hb & Hst & Hn & Htr).
    rewrite Hb in Hrun. injection Hrun as <-.
    exists 0%nat, [EvRead (InSignal sig)]. cbn [state_of loop_end].
    split; [lia|]. split; [exact Hst|]. split; [lia|].
    split; [exact Htr|]. split; [reflexivity|].
    split; [intros j Hj; lia|].
    rewrite Nat.add_0_r. split; [exact Hin | now exists []].
  - destruct (loop_body_returns e s Hsig) as (s' & Hb & Hst & Hn & Htr).
    rewrite Hb in Hrun.
    destruct (is_quit (stdin e (n_read s))) eqn:Hq.
    + injection Hrun as <-. apply is_quit_iff in Hq.
      exists 0%nat, [EvRead (InByte Byte.x71); EvPrintf (line_of 113)].
      rewrite Hq in Htr. cbn [state_of loop_end].
      split; [lia|]. split; [exact Hst|]. split; [lia|].
      split; [exact Htr|]. split; [reflexivity|].
      split; [intros j Hj; lia|].
      rewrite Nat.add_0_r. split; [exact Hq | now exists []].
    + destruct (IH s' r Hrun)
        as (k & evs & Hk & Hst' & Hn' & Htr' & Hio & Hloop & Hend).
      exists (S k),
        ([EvRead (stdin e (n_read s));
          EvPrintf (line_of (char_read (stdin e (n_read s))))] ++ evs).
      split; [lia|]. split; [eapply same_terminal_trans; eassumption|].
      split; [rewrite Hn', Hn; lia|].
      split; [rewrite Htr', Htr; now rewrite <- app_assoc|].
      split; [exact Hio|].
      split; [apply keeps_looping_shift; try assumption; now rewrite <- Hn|].
      unfold loop_end in *. rewrite Hn in Hend.
      replace (n_read s + S k)%nat with (S (n_read s) + k)%nat by lia.
      destruct r as [u s2 | code s2 | sig s2]; [| exact Hend |].
      * destruct Hend as (Hin & evs' & ->). split; [exact Hin|].
        eexists. now rewrite app_assoc.
      * destruct Hend as (Hin & evs' & ->). split; [exact Hin|].
        eexists. now rewrite app_assoc.
Qed.

(** With enough fuel the loop ends as soon as a read delivers the quit byte
    or a signal. *)
Lemma main_loop_terminates (e : env) (k : nat) :
  forall (s : state) (fuel : nat),
    (k < fuel)%nat ->
    keeps_looping e (n_read s) k ->
    is_quit (stdin e (n_read s + k)) || is_signal (stdin e (n_read s + k)) = true ->
    exists r, main_loop e fuel s = Some r.
Proof.
  induction k as [| k IH]; intros s fuel Hfuel Hloop Hend;
    (destruct fuel as [| n]; [lia|]); cbn [main_loop].
  - rewrite Nat.add_0_r in Hend.
    destruct (is_signal (stdin e (n_read s))) eqn:Hsig.
    + destruct (stdin e (n_read s)) as [b | | | err | sig] eqn:Hin;
        try discriminate Hsig.
      destruct (loop_body_signal e s sig Hin) as (s' & -> & _). eauto.
    + destruct (loop_body_returns e s Hsig) as (s' & -> & _).
      rewrite orb_false_r in Hend. rewrite Hend. eauto.
  - apply keeps_looping_tail in Hloop as (Hq & Hsig & Hloop).
    destruct (loop_body_returns e s Hsig) as (s' & -> & _ & Hn & _).
    rewrite Hq. apply IH; rewrite ?Hn; try lia; try assumption.
    now replace (S (n_read s) + k)%nat with (n_read s + S k)%nat by lia.
Qed.

(** *** exit *)

(** What [disableRawMode] leaves in the trace when it applies [A]: the call,
    and the diagnostic of [die] if the call failed. *)
Definition restore_events (A : termios) (failure : option Z) : list event :=
  match failure with
  | None => [EvTcsetattr A true]
  | Some err => [EvTcsetattr A false; EvPerror "tcsetattr" err]
  end.

(** The exit status after the registered [disableRawMode] has run. *)
Definition status_after_restore (code : Z) (failure : option Z) : Z :=
  match failure with
  | None => code
  | Some _ => 1
  end.

Lemma do_exit_no_handlers (e : env) (code : Z) (s : state) :
  handlers s = [] -> do_exit e code s = (Exited code, s).
Proof. intros H. unfold do_exit. now rewrite H. Qed.

Lemma do_exit_restore (e : env) (code : Z) (s : state) :
  handlers s = [fn_disableRawMode] ->
  exists s',
    do_exit e code s =
      (Exited (status_after_restore code (tcsetattr_err e (n_set s))), s') /\
    tty s' = match tcsetattr_err e (n_set s) with
             | None => orig_termios s
             | Some _ => tty s
             end /\
    orig_termios s' = orig_termios s /\ handlers s' = [] /\
    n_set s' = S (n_set s) /\ n_read s' = n_read s /\
    trace s' = trace s ++
               restore_events (orig_termios s) (tcsetattr_err e (n_set s)).
Proof.
  intros Hh. unfold do_exit. rewrite Hh. cbn [run_exit_handlers call_handler].
  destruct (tcsetattr_err e (n_set s)) as [err |] eqn:Hs.
  - destruct (disableRawMode_fails e (set_handlers [] s) err Hs)
      as (s' & -> & Ht & Ho & Hhs & Hn & Hr & Htr).
    exists s'. cbn [run_exit_handlers status_after_restore restore_events].
    now repeat split.
  - destruct (disableRawMode_succeeds e (set_handlers [] s) Hs)
      as (s' & -> & Ht & Ho & Hhs & Hn & Hr & Htr).
    exists s'. cbn [run_exit_handlers status_after_restore restore_events].
    now repeat split.
Qed.

(** ** The runs of the process *)

(** The calls made before the loop when [enableRawMode] goes through. *)
Definition startup_events (A : termios) (raw_ok : bool) : list event :=
  [EvTcgetattr true; EvAtexit fn_disableRawMode;
   EvTcsetattr (raw_termios A) raw_ok].

(** Every finished run of the process on a terminal with attributes [A] is
    of one of four kinds. *)
Inductive run_case (e : env) (fuel : nat) (A : termios)
          (o : outcome) (s : state) : Prop :=
| RunCaptureFails (err : Z) :
    tcgetattr_err e = Some err ->
    o = Exited 1 ->
    tty s = A -> orig_termios s = termios_zero ->
    n_set s = 0%nat -> n_read s = 0%nat ->
    trace s = [EvTcgetattr false; EvPerror "tcgetattr" err] ->
    run_case e fuel A o s
| RunApplyFails (err : Z) :
    tcgetattr_err e = None -> tcsetattr_err e 0%nat = Some err ->
    o = Exited 1 ->
    tty s = A -> orig_termios s = A ->
    n_set s = 2%nat -> n_read s = 0%nat ->
    trace s = startup_events A false ++ [EvPerror "tcsetattr" err] ++
              restore_events A (tcsetattr_err e 1%nat) ->
    run_case e fuel A o s
| RunKilled (sig : Z) (k : nat) (evs : list event) :
    tcgetattr_err e = None -> tcsetattr_err e 0%nat = None ->
    (k < fuel)%nat -> keeps_looping e 0 k -> stdin e k = InSignal sig ->
    o = Killed sig ->
    tty s = raw_termios A -> orig_termios s = A ->
    n_set s = 1%nat -> n_read s = S k ->
    forallb is_io evs = true ->
    trace s = startup_events A true ++ evs ++ [EvRead (InSignal sig)] ->
    run_case e fuel A o s
| RunQuit (k : nat) (evs : list event) :
    tcgetattr_err e = None -> tcsetattr_err e 0%nat = None ->
    (k < fuel)%nat -> keeps_looping e 0 k -> stdin e k = InByte Byte.x71 ->
    o = Exited (status_after_restore 0 (tcsetattr_err e 1%nat)) ->
    tty s = match tcsetattr_err e 1%nat with
            | None => A
            | Some _ => raw_termios A
            end ->
    orig_termios s = A ->
    n_set s = 2%nat -> n_read s = S k ->
    forallb is_io evs = true ->
    trace s = startup_events A true ++
              (evs ++ [EvRead (InByte Byte.x71); EvPrintf (line_of 113)]) ++
              restore_events A (tcsetattr_err e 1%nat) ->
    run_case e fuel A o s.

Lemma run_shape (e : env) (fuel : nat) (A : termios)
      (o : outcome) (s : state) :
  run e fuel A = Some (o, s) -> run_case e fuel A o s.
Proof.
  unfold run, main. intros Hrun.
  destruct (tcgetattr_err e) as [err |] eqn:Hg.
  { destruct (enableRawMode_capture_fails e (initial_state A) err Hg)
      as (s1 & Hen & (Ht & Ho & Hh & Hns) & Hnr & Htr).
    rewrite Hen in Hrun.
    rewrite do_exit_no_handlers in Hrun by exact Hh.
    injection Hrun as <- <-.
    cbn [initial_state tty orig_termios handlers n_set n_read trace] in *.
    now apply (RunCaptureFails _ _ _ _ _ err). }
  destruct (tcsetattr_err e 0%nat) as [err |] eqn:Hs.
  { destruct (enableRawMode_apply_fails e (initial_state A) err Hg Hs)
      as (s1 & Hen & Ht & Ho & Hh & Hns & Hnr & Htr).
    rewrite Hen in Hrun.
    destruct (do_exit_restore e 1 s1 Hh)
      as (s2 & Hex & Ht2 & Ho2 & Hh2 & Hns2 & Hnr2 & Htr2).
    rewrite Hex in Hrun. injection Hrun as <- <-.
    rewrite Hns in *.
    cbn [initial_state tty orig_termios handlers n_set n_read trace] in *.
    apply (RunApplyFails _ _ _ _ _ err); try assumption; try congruence.
    - now destruct (tcsetattr_err e 1%nat).
    - rewrite Ht2, Ho, Ht. now destruct (tcsetattr_err e 1%nat).
    - rewrite Htr2, Htr, Ho. reflexivity. }
  destruct (enableRawMode_succeeds e (initial_state A) Hg Hs)
    as (s1 & Hen & Ht & Ho & Hh & Hns & Hnr & Htr).
  rewrite Hen in Hrun.
  destruct (main_loop e fuel s1) as [r |] eqn:Hloop; [| discriminate Hrun].
  destruct (main_loop_sound e fuel s1 r Hloop)
    as (k & evs & Hk & (Ht' & Ho' & Hh' & Hns') & Hnr' & Htr' & Hio & Hkeep & Hend).
  rewrite Hnr in *.
  cbn [initial_state tty orig_termios handlers n_set n_read trace] in *.
  destruct r as [u s2 | code s2 | sig s2]; cbn [state_of loop_end] in *;
    [ | contradiction | ].
  - destruct Hend as (Hin & evs' & ->).
    assert (Hh2 : handlers s2 = [fn_disableRawMode]) by congruence.
    destruct (do_exit_restore e 0 s2 Hh2)
      as (s3 & Hex & Ht3 & Ho3 & Hh3 & Hns3 & Hnr3 & Htr3).
    rewrite Hex in Hrun. injection Hrun as <- <-.
    rewrite Hns', Hns in *.
    rewrite Hnr in Hin.
    apply (RunQuit _ _ _ _ _ k evs'); try assumption; try congruence.
    + rewrite Ht3, Ho', Ho, Ht', Ht. reflexivity.
    + rewrite Hnr3, Hnr'. reflexivity.
    + rewrite forallb_app in Hio. now apply andb_true_iff in Hio.
    + rewrite Htr3, Htr', Htr, Ho', Ho. reflexivity.
  - destruct Hend as (Hin & evs' & ->).
    injection Hrun as <- <-. rewrite Hnr in Hin.
    apply (RunKilled _ _ _ _ _ sig k evs'); try assumption; try congruence.
    + rewrite forallb_app in Hio. now apply andb_true_iff in Hio.
    + rewrite Htr', Htr. reflexivity.
Qed.

(** With enough fuel for the first read that delivers the quit byte or a
    signal, the run finishes; a run that fails at startup finishes with any
    fuel. *)
Lemma run_finishes_at_startup (e : env) (fuel : nat) (A : termios) :
  tcgetattr_err e <> None \/ tcsetattr_err e 0%nat <> None ->
  exists o s, run e fuel A = Some (o, s).
Proof.
  intros Hfail. unfold run, main.
  destruct (tcgetattr_err e) as [err |] eqn:Hg.
  - destruct (enableRawMode_capture_fails e (initial_state A) err Hg)
      as (s1 & -> & _).
    destruct (do_exit e 1 s1) as [o s]. eauto.
  - destruct (tcsetattr_err e 0%nat) as [err |] eqn:Hs; [| tauto].
    destruct (enableRawMode_apply_fails e (initial_state A) err Hg Hs)
      as (s1 & -> & _).
    destruct (do_exit e 1 s1) as [o s]. eauto.
Qed.

Lemma run_finishes (e : env) (fuel : nat) (A : termios) (k : nat) :
  (k < fuel)%nat -> keeps_looping e 0 k ->
  is_quit (stdin e k) || is_signal (stdin e k) = true ->
  exists o s, run e fuel A = Some (o, s).
Proof.
  intros Hk Hkeep Hend.
  destruct (tcgetattr_err e) as [err |] eqn:Hg;
    [apply run_finishes_at_startup; left; congruence|].
  destruct (tcsetattr_err e 0%nat) as [err |] eqn:Hs;
    [apply run_finishes_at_startup; right; congruence|].
  unfold run, main.
  destruct (enableRawMode_succeeds e (initial_state A) Hg Hs)
    as (s1 & -> & _ & _ & _ & _ & Hnr & _).
  cbn [initial_state n_read] in Hnr.
  destruct (main_loop_terminates e k s1 fuel Hk) as (r & ->);
    rewrite ?Hnr; try assumption.
  destruct r as [u s2 | code s2 | sig s2];
    try destruct (do_exit e _ s2) as [o s]; eauto.
Qed.

(** The first read that ends the loop is determined by the input. *)
Lemma first_end_unique (e : env) (n k k' : nat) :
  keeps_looping e n k -> keeps_looping e n k' ->
  is_quit (stdin e (n + k)) || is_signal (stdin e (n + k)) = true ->
  is_quit (stdin e (n + k')) || is_signal (stdin e (n + k')) = true ->
  k = k'.
Proof.
  intros Hk Hk' He He'.
  destruct (Nat.lt_trichotomy k k') as [Hlt | [Heq | Hgt]]; [| exact Heq |].
  - destruct (Hk' k Hlt) as [Hq Hs]. rewrite Hq, Hs in He. discriminate He.
  - destruct (Hk k' Hgt) as [Hq Hs]. rewrite Hq, Hs in He'. discriminate He'.
Qed.

(** While neither arrives the loop is still running. *)
Lemma main_loop_running (e : env) (fuel : nat) :
  forall s : state,
    keeps_looping e (n_read s) fuel -> main_loop e fuel s = None.
Proof.
  induction fuel as [| n IH]; intros s Hkeep; [reflexivity|].
  apply keeps_looping_tail in Hkeep as (Hq & Hsig & Hkeep).
  cbn [main_loop].
  destruct (loop_body_returns e s Hsig) as (s' & -> & _ & Hn & _).
  rewrite Hq. apply IH. now rewrite Hn.
Qed.

(** *** Reading a trace *)

(** The arguments and results of the [tcsetattr] calls, in order. *)
Fixpoint tcsetattr_calls (tr : list event) : list (termios * bool) :=
  match tr with
  | [] => []
  | EvTcsetattr a ok :: tr' => (a, ok) :: tcsetattr_calls tr'
  | _ :: tr' => tcsetattr_calls tr'
  end.

(** The number of [tcgetattr] calls. *)
Fixpoint tcgetattr_calls (tr : list event) : nat :=
  match tr with
  | [] => 0
  | EvTcgetattr _ :: tr' => S (tcgetattr_calls tr')
  | _ :: tr' => tcgetattr_calls tr'
  end.

(** What went to standard output and to standard error. *)
Fixpoint stdout_of (tr : list event) : list string :=
  match tr with
  | [] => []
  | EvPrintf out :: tr' => out :: stdout_of tr'
  | _ :: tr' => stdout_of tr'
  end.

Fixpoint stderr_of (tr : list event) : list (string * Z) :=
  match tr with
  | [] => []
  | EvPerror msg err :: tr' => (msg, err) :: stderr_of tr'
  | _ :: tr' => stderr_of tr'
  end.

Lemma tcsetattr_calls_app (tr1 tr2 : list event) :
  tcsetattr_calls (tr1 ++ tr2) = tcsetattr_calls tr1 ++ tcsetattr_calls tr2.
Proof.
  induction tr1 as [| ev tr1 IH]; [reflexivity|].
  destruct ev; cbn; now rewrite IH.
Qed.

Lemma tcgetattr_calls_app (tr1 tr2 : list event) :
  tcgetattr_calls (tr1 ++ tr2) = (tcgetattr_calls tr1 + tcgetattr_calls tr2)%nat.
Proof.
  induction tr1 as [| ev tr1 IH]; [reflexivity|].
  destruct ev; cbn; now rewrite IH.
Qed.

Lemma io_no_tcsetattr (evs : list event) :
  forallb is_io evs = true -> tcsetattr_calls evs = [].
Proof.
  induction evs as [| ev evs IH]; [reflexivity|].
  destruct ev; cbn; try discriminate; exact IH.
Qed.

Lemma io_no_tcgetattr (evs : list event) :
  forallb is_io evs = true -> tcgetattr_calls evs = 0%nat.
Proof.
  induction evs as [| ev evs IH]; [reflexivity|].
  destruct ev; cbn; try discriminate; exact IH.
Qed.

Lemma io_no_stderr (evs : list event) :
  forallb is_io evs = true -> stderr_of evs = [].
Proof.
  induction evs as [| ev evs IH]; [reflexivity|].
  destruct ev; cbn; try discriminate; exact IH.
Qed.

Lemma tcsetattr_calls_restore (A : termios) (failure : option Z) :
  tcsetattr_calls (restore_events A failure) =
  [(A, match failure with None => true | Some _ => false end)].
Proof. now destruct failure. Qed.

Lemma tcgetattr_calls_restore (A : termios) (failure : option Z) :
  tcgetattr_calls (restore_events A failure) = 0%nat.
Proof. now destruct failure. Qed.

(** ** Sample environments *)

Definition EIO : Z := 5.
Definition ENOTTY : Z := 25.
Definition SIGTERM : Z := 15.

Definition type_q (n : nat) : stdin_event := InByte Byte.x71.

(** The user types [a]; then the process receives SIGTERM. *)
Definition env_sigterm : env :=
  env_ok (fun n => match n with
                   | O => InByte Byte.x61
                   | _ => InSignal SIGTERM
                   end).

(** The second [tcsetattr] (the one made at exit) fails. *)
Definition env_restore_fails : env :=
  mk_env None (fun n => match n with 1%nat => Some EIO | _ => None end) type_q.

(** Standard input is not a terminal. *)
Definition env_not_a_tty : env :=
  mk_env (Some ENOTTY) (fun _ => Some ENOTTY) type_q.

(** The terminal goes away after the second [tcsetattr]: the third fails. *)
Definition env_hangup : env :=
  mk_env None (fun n => match n with 2%nat => Some EIO | _ => None end) type_q.

(** The first [tcsetattr] (the one applying the raw configuration) fails. *)
Definition env_raw_fails : env :=
  mk_env None (fun n => match n with O => Some EIO | _ => None end) type_q.

(** ** The exit guard *)

(** C1, as amended: if [enableRawMode] succeeds and the process then ends by
    returning from [main] or through [exit], [disableRawMode] has run before
    the process ends, and its [tcsetattr] of the captured original is the last
    call made; when that call succeeds the terminal has the original
    attributes again.  A process ended by a signal ends in raw mode, with no
    call after the read that was interrupted. *)
Theorem restore_runs_on_exit (e : env) (fuel : nat) (A : termios)
        (o : outcome) (s : state) :
  tcgetattr_err e = None -> tcsetattr_err e 0%nat = None ->
  run e fuel A = Some (o, s) ->
  match o with
  | Exited code =>
      (exists evs,
          forallb is_io evs = true /\
          trace s = startup_events A true ++ evs ++
                    restore_events A (tcsetattr_err e 1%nat)) /\
      tcsetattr_calls (trace s) =
        [(raw_termios A, true);
         (A, match tcsetattr_err e 1%nat with None => true | Some _ => false end)] /\
      (tcsetattr_err e 1%nat = None -> tty s = A)
  | Killed sig =>
      (exists evs,
          forallb is_io evs = true /\
          trace s = startup_events A true ++ evs) /\
      tcsetattr_calls (trace s) = [(raw_termios A, true)] /\
      tty s = raw_termios A
  end.
Proof.
  intros Hg Hs Hrun.
  destruct (run_shape e fuel A o s Hrun)
    as [err Hg' | err Hg' Hs' | sig k evs _ _ _ _ Hin -> Ht Ho _ _ Hio Htr
        | k evs _ _ _ _ Hin -> Ht Ho _ _ Hio Htr]; try congruence.
  - assert (Hio' : forallb is_io (evs ++ [EvRead (InSignal sig)]) = true)
      by (rewrite forallb_app, Hio; reflexivity).
    split; [eauto|]. split; [| exact Ht].
    rewrite Htr, tcsetattr_calls_app, (io_no_tcsetattr _ Hio'). reflexivity.
  - set (io := evs ++ [EvRead (InByte Byte.x71); EvPrintf (line_of 113)]) in *.
    assert (Hio' : forallb is_io io = true)
      by (unfold io; rewrite forallb_app, Hio; reflexivity).
    destruct (tcsetattr_err e 1%nat) as [err |] eqn:Hr;
      cbn [status_after_restore].
    + split; [eauto|]. split; [| discriminate].
      rewrite Htr, !tcsetattr_calls_app, (io_no_tcsetattr _ Hio').
      reflexivity.
    + split; [eauto|]. split; [| intros _; exact Ht].
      rewrite Htr, !tcsetattr_calls_app, (io_no_tcsetattr _ Hio').
      reflexivity.
Qed.

Lemma restore_runs_on_exit_witness :
  exists s : state,
    run (env_ok type_aq) 5 cooked = Some (Exited 0, s) /\
    tcsetattr_calls (trace s) = [(raw_termios cooked, true); (cooked, true)] /\
    tty s = cooked.
Proof.
  destruct (run (env_ok type_aq) 5 cooked) as [[o s] |] eqn:Hrun;
    [| vm_compute in Hrun; discriminate Hrun].
  pose proof (restore_runs_on_exit (env_ok type_aq) 5 cooked o s
                eq_refl eq_refl Hrun) as H.
  assert (Ho : o = Exited 0)
    by (vm_compute in Hrun; injection Hrun as <- _; reflexivity).
  subst o. destruct H as (_ & Hcalls & Htty).
  exists s. split; [reflexivity|]. split; [exact Hcalls | now apply Htty].
Defined.

(** C1 as written fails for termination by a signal: after a successful
    [enableRawMode], SIGTERM ends the process with the raw configuration
    still applied; the only [tcsetattr] ever made is the one that applied
    it. *)
Lemma signal_skips_restore :
  tcgetattr_err env_sigterm = None /\
  tcsetattr_err env_sigterm 0%nat = None /\
  exists s : state,
    run env_sigterm 5 cooked = Some (Killed SIGTERM, s) /\
    tcsetattr_calls (trace s) = [(raw_termios cooked, true)] /\
    tty s = raw_termios cooked /\
    tty s <> cooked.
Proof.
  split; [reflexivity|]. split; [reflexivity|].
  eexists. split; [vm_compute; reflexivity|].
  split; [reflexivity|]. split; [reflexivity|].
  cbn. intros H. apply (f_equal c_lflag) in H. vm_compute in H. discriminate H.
Qed.

(** ** Capture, apply, restore *)

(** C3: for every configuration [A] the terminal has when it is captured,
    applying the raw configuration and then running [disableRawMode] leaves
    the terminal with [A], so that a capture made afterwards gives [A] again;
    and in whatever state it is called, [disableRawMode] passes the stored
    [orig_termios] itself to [tcsetattr]. *)
Theorem restore_round_trip (e : env) (s : state) :
  tcgetattr_err e = None ->
  tcsetattr_err e (n_set s) = None ->
  tcsetattr_err e (S (n_set s)) = None ->
  (exists s1 s2 s3,
      enableRawMode e s = Ret tt s1 /\
      tty s1 = raw_termios (tty s) /\ orig_termios s1 = tty s /\
      disableRawMode e s1 = Ret tt s2 /\
      tty s2 = tty s /\
      tcgetattr e set_orig_termios s2 = Ret 0 s3 /\
      orig_termios s3 = tty s) /\
  (forall s' : state,
      exists ok rest,
        trace (state_of (disableRawMode e s')) =
        trace s' ++ EvTcsetattr (orig_termios s') ok :: rest).
Proof.
  intros Hg Hs0 Hs1. split.
  - destruct (enableRawMode_succeeds e s Hg Hs0)
      as (s1 & Hen & Ht1 & Ho1 & _ & Hn1 & _).
    rewrite <- Hn1 in Hs1.
    destruct (disableRawMode_succeeds e s1 Hs1)
      as (s2 & Hdis & Ht2 & _).
    exists s1, s2. eexists.
    repeat (split; [eassumption || congruence|]).
    unfold tcgetattr. rewrite Hg. split; [reflexivity|].
    cbn. congruence.
  - intros s'. destruct (tcsetattr_err e (n_set s')) as [err |] eqn:Hs'.
    + destruct (disableRawMode_fails e s' err Hs') as (s2 & -> & H).
      cbn [state_of]. exists false. eexists. apply H.
    + destruct (disableRawMode_succeeds e s' Hs') as (s2 & -> & H).
      cbn [state_of]. exists true. eexists. apply H.
Qed.

Lemma restore_round_trip_witness :
  exists s1 s2 s3,
    enableRawMode (env_ok type_aq) (initial_state cooked) = Ret tt s1 /\
    tty s1 = raw_termios cooked /\ orig_termios s1 = cooked /\
    disableRawMode (env_ok type_aq) s1 = Ret tt s2 /\
    tty s2 = cooked /\
    tcgetattr (env_ok type_aq) set_orig_termios s2 = Ret 0 s3 /\
    orig_termios s3 = cooked.
Proof.
  exact (proj1 (restore_round_trip (env_ok type_aq) (initial_state cooked)
                  eq_refl eq_refl eq_refl)).
Defined.

(** C4, as amended: calling [disableRawMode] twice in succession leaves the
    terminal configuration as one call leaves it, namely equal to the stored
    [orig_termios].  The function has no case in which it does nothing: it
    applies [orig_termios] whenever it is called.  On the exit path taken
    before anything is captured it is not registered, so that no [tcsetattr]
    is made and the terminal is left as it was. *)
Theorem restore_idempotent (e : env) :
  (forall s : state,
      tcsetattr_err e (n_set s) = None ->
      exists s1,
        disableRawMode e s = Ret tt s1 /\
        tty s1 = orig_termios s /\
        tty (state_of (disableRawMode e s1)) = tty s1) /\
  (forall (fuel : nat) (A : termios) (o : outcome) (s : state),
      tcgetattr_err e <> None ->
      run e fuel A = Some (o, s) ->
      tcsetattr_calls (trace s) = [] /\ tty s = A).
Proof.
  split.
  - intros s Hs.
    destruct (disableRawMode_succeeds e s Hs)
      as (s1 & Hdis & Ht1 & Ho1 & _).
    exists s1. split; [exact Hdis|]. split; [exact Ht1|].
    destruct (tcsetattr_err e (n_set s1)) as [err |] eqn:Hs1.
    + destruct (disableRawMode_fails e s1 err Hs1) as (s2 & -> & Ht2 & _).
      exact Ht2.
    + destruct (disableRawMode_succeeds e s1 Hs1) as (s2 & -> & Ht2 & _).
      cbn [state_of]. congruence.
  - intros fuel A o s Hg Hrun.
    destruct (run_shape e fuel A o s Hrun)
      as [err _ _ Ht _ _ _ Htr | | |]; try congruence.
    rewrite Htr. split; [reflexivity | exact Ht].
Qed.

Lemma restore_idempotent_witness :
  (exists s1,
      disableRawMode (env_ok type_aq) (initial_state cooked) = Ret tt s1 /\
      tty s1 = orig_termios (initial_state cooked) /\
      tty (state_of (disableRawMode (env_ok type_aq) s1)) = tty s1) /\
  (exists s,
      run env_not_a_tty 0 cooked = Some (Exited 1, s) /\
      tcsetattr_calls (trace s) = [] /\ tty s = cooked).
Proof.
  split.
  - exact (proj1 (restore_idempotent (env_ok type_aq))
                 (initial_state cooked) eq_refl).
  - eexists. split; [vm_compute; reflexivity|].
    refine (proj2 (restore_idempotent env_not_a_tty) 0%nat cooked (Exited 1) _ _ _).
    + discriminate.
    + vm_compute. reflexivity.
Defined.

(** C4 as written fails: [disableRawMode] is not a no-op when there is
    nothing to restore.  Called when nothing has been captured, it writes the
    zero-initialised global to the terminal, or, when [tcsetattr] fails, ends
    the process through [die]; called again after a restore that succeeded,
    it makes the call again and dies if that call fails. *)
Lemma restore_is_not_a_noop :
  (exists s1,
      disableRawMode (env_ok type_aq) (initial_state cooked) = Ret tt s1 /\
      tty s1 = termios_zero /\ tty s1 <> tty (initial_state cooked)) /\
  (exists s1,
      disableRawMode env_not_a_tty (initial_state cooked) = Exit 1 s1 /\
      stderr_of (trace s1) = [("tcsetattr"%string, ENOTTY)]) /\
  (exists s1 s2 s3,
      enableRawMode env_hangup (initial_state cooked) = Ret tt s1 /\
      disableRawMode env_hangup s1 = Ret tt s2 /\ tty s2 = cooked /\
      disableRawMode env_hangup s2 = Exit 1 s3 /\
      stderr_of (trace s3) = [("tcsetattr"%string, EIO)]).
Proof.
  split; [| split].
  - eexists. split; [vm_compute; reflexivity|]. split; [reflexivity|].
    cbn. intros H. apply (f_equal c_lflag) in H. discriminate H.
  - eexists. split; [vm_compute; reflexivity|]. reflexivity.
  - do 3 eexists. split; [vm_compute; reflexivity|].
    split; [vm_compute; reflexivity|]. split; [reflexivity|].
    split; [vm_compute; reflexivity|]. reflexivity.
Qed.

(** C5, as amended: in every run of the process [tcgetattr] is called exactly
    once, by the one call of [enableRawMode] in [main]; when it succeeds,
    [orig_termios] holds the snapshot it took until the process ends.
    [enableRawMode] itself captures each time it is called. *)
Theorem captured_once (e : env) (fuel : nat) (A : termios)
        (o : outcome) (s : state) :
  run e fuel A = Some (o, s) ->
  tcgetattr_calls (trace s) = 1%nat /\
  (tcgetattr_err e = None -> orig_termios s = A).
Proof.
  intros Hrun.
  destruct (run_shape e fuel A o s Hrun)
    as [err Hg _ _ _ _ _ Htr | err _ _ _ _ Ho _ _ Htr
        | sig k evs _ _ _ _ _ _ _ Ho _ _ Hio Htr
        | k evs _ _ _ _ _ _ _ Ho _ _ Hio Htr].
  - rewrite Htr. split; [reflexivity | congruence].
  - split; [| intros _; exact Ho].
    rewrite Htr, !tcgetattr_calls_app, tcgetattr_calls_restore. reflexivity.
  - split; [| intros _; exact Ho].
    rewrite Htr, !tcgetattr_calls_app, (io_no_tcgetattr _ Hio). reflexivity.
  - split; [| intros _; exact Ho].
    rewrite Htr, !tcgetattr_calls_app, (io_no_tcgetattr _ Hio),
      tcgetattr_calls_restore.
    reflexivity.
Qed.

Lemma captured_once_witness :
  exists s : state,
    run (env_ok type_aq) 5 cooked = Some (Exited 0, s) /\
    tcgetattr_calls (trace s) = 1%nat /\
    (tcgetattr_err (env_ok type_aq) = None -> orig_termios s = cooked).
Proof.
  eexists. split; [vm_compute; reflexivity|].
  refine (captured_once (env_ok type_aq) 5 cooked (Exited 0) _ _).
  vm_compute. reflexivity.
Defined.

(** C5 as written fails for a sequence of calls: a second [enableRawMode]
    captures again and overwrites [orig_termios] with the raw
    configuration. *)
Lemma second_capture_overwrites :
  exists s1 s2,
    enableRawMode (env_ok type_aq) (initial_state cooked) = Ret tt s1 /\
    orig_termios s1 = cooked /\
    enableRawMode (env_ok type_aq) s1 = Ret tt s2 /\
    orig_termios s2 = raw_termios cooked /\
    orig_termios s2 <> orig_termios s1.
Proof.
  eexists. eexists. split; [vm_compute; reflexivity|].
  split; [reflexivity|]. split; [vm_compute; reflexivity|].
  split; [reflexivity|].
  cbn. intros H. apply (f_equal c_lflag) in H. discriminate H.
Qed.

(** ** Exit status and diagnostics *)

Lemma stderr_of_app (tr1 tr2 : list event) :
  stderr_of (tr1 ++ tr2) = stderr_of tr1 ++ stderr_of tr2.
Proof.
  induction tr1 as [| ev tr1 IH]; [reflexivity|].
  destruct ev; cbn; now rewrite IH.
Qed.

Lemma stdout_of_app (tr1 tr2 : list event) :
  stdout_of (tr1 ++ tr2) = stdout_of tr1 ++ stdout_of tr2.
Proof.
  induction tr1 as [| ev tr1 IH]; [reflexivity|].
  destruct ev; cbn; now rewrite IH.
Qed.

(** The diagnostics of a restore that met [failure]. *)
Definition restore_diagnostic (failure : option Z) : list (string * Z) :=
  match failure with
  | None => []
  | Some err => [("tcsetattr"%string, err)]
  end.

Lemma stderr_of_restore (A : termios) (failure : option Z) :
  stderr_of (restore_events A failure) = restore_diagnostic failure.
Proof. now destruct failure. Qed.

(** C6, as amended: a failed [tcgetattr] or [tcsetattr] in [enableRawMode]
    ends the process with status 1 before any input is read, after [perror]
    has written the diagnostic; when [enableRawMode] has succeeded and the
    quit byte is read, the process exits with status 0 if the restore made at
    exit succeeds, and with status 1, after a diagnostic, if it fails. *)
Theorem exit_status (e : env) (fuel : nat) (A : termios) :
  (forall err : Z,
      tcgetattr_err e = Some err ->
      exists s,
        run e fuel A = Some (Exited 1, s) /\ n_read s = 0%nat /\
        stderr_of (trace s) = [("tcgetattr"%string, err)]) /\
  (forall err : Z,
      tcgetattr_err e = None -> tcsetattr_err e 0%nat = Some err ->
      exists s,
        run e fuel A = Some (Exited 1, s) /\ n_read s = 0%nat /\
        stderr_of (trace s) =
          ("tcsetattr"%string, err) :: restore_diagnostic (tcsetattr_err e 1%nat)) /\
  (forall k : nat,
      tcgetattr_err e = None -> tcsetattr_err e 0%nat = None ->
      (k < fuel)%nat -> keeps_looping e 0 k -> stdin e k = InByte Byte.x71 ->
      exists s,
        run e fuel A =
          Some (Exited (match tcsetattr_err e 1%nat with
                        | None => 0
                        | Some _ => 1
                        end), s) /\
        n_read s = S k /\
        stderr_of (trace s) = restore_diagnostic (tcsetattr_err e 1%nat)).
Proof.
  split; [| split].
  - intros err Hg.
    destruct (run_finishes_at_startup e fuel A) as (o & s & Hrun);
      [left; congruence|].
    destruct (run_shape e fuel A o s Hrun)
      as [err' Hg' -> _ _ _ Hnr Htr | | |]; try congruence.
    exists s. split; [exact Hrun|]. split; [exact Hnr|].
    rewrite Htr. cbn. congruence.
  - intros err Hg Hs.
    destruct (run_finishes_at_startup e fuel A) as (o & s & Hrun);
      [right; congruence|].
    destruct (run_shape e fuel A o s Hrun)
      as [| err' _ Hs' -> _ _ _ Hnr Htr | |]; try congruence.
    exists s. split; [exact Hrun|]. split; [exact Hnr|].
    rewrite Htr, !stderr_of_app, stderr_of_restore. cbn. congruence.
  - intros k Hg Hs Hk Hkeep Hin.
    assert (Hend : is_quit (stdin e k) || is_signal (stdin e k) = true)
      by (rewrite Hin; reflexivity).
    destruct (run_finishes e fuel A k Hk Hkeep Hend) as (o & s & Hrun).
    destruct (run_shape e fuel A o s Hrun)
      as [| | sig k' evs _ _ _ Hkeep' Hin' _ _ _ _ _ _ _
          | k' evs _ _ _ Hkeep' Hin' -> _ _ _ Hnr Hio Htr]; try congruence.
    + assert (k = k').
      { apply (first_end_unique e 0); try assumption.
        cbn [Nat.add]. rewrite Hin'. reflexivity. }
      congruence.
    + assert (k = k').
      { apply (first_end_unique e 0); try assumption.
        cbn [Nat.add]. rewrite Hin'. reflexivity. }
      subst k'. exists s. split; [exact Hrun|]. split; [exact Hnr|].
      rewrite Htr, !stderr_of_app, stderr_of_restore.
      rewrite (io_no_stderr _ Hio). reflexivity.
Qed.

Lemma exit_status_witness :
  (exists s, run env_not_a_tty 3 cooked = Some (Exited 1, s) /\
             n_read s = 0%nat /\
             stderr_of (trace s) = [("tcgetattr"%string, ENOTTY)]) /\
  (exists s, run env_raw_fails 3 cooked = Some (Exited 1, s) /\
             n_read s = 0%nat /\
             stderr_of (trace s) = [("tcsetattr"%string, EIO)]) /\
  (exists s, run (env_ok type_aq) 3 cooked = Some (Exited 0, s) /\
             n_read s = 3%nat /\ stderr_of (trace s) = []).
Proof.
  split; [| split].
  - exact (proj1 (exit_status env_not_a_tty 3 cooked) ENOTTY eq_refl).
  - exact (proj1 (proj2 (exit_status env_raw_fails 3 cooked))
                 EIO eq_refl eq_refl).
  - refine (proj2 (proj2 (exit_status (env_ok type_aq) 3 cooked))
                  2%nat eq_refl eq_refl _ _ eq_refl).
    + lia.
    + intros [| [| j]] Hj; [split; reflexivity | split; reflexivity | lia].
Defined.

(** C6 as written fails: the quit byte is read, and the process exits with
    status 1 because the restore made at exit failed. *)
Lemma quit_with_failed_restore :
  tcgetattr_err env_restore_fails = None /\
  tcsetattr_err env_restore_fails 0%nat = None /\
  stdin env_restore_fails 0%nat = InByte Byte.x71 /\
  exists s,
    run env_restore_fails 1 cooked = Some (Exited 1, s) /\
    stdout_of (trace s) = [line_of 113] /\
    stderr_of (trace s) = [("tcsetattr"%string, EIO)].
Proof.
  repeat (split; [reflexivity|]).
  eexists. split; [vm_compute; reflexivity|]. split; reflexivity.
Qed.

(** C7: when the [tcsetattr] of the restore made at exit fails, the failure
    is reported through [perror] and the process ends, with status 1 whatever
    status it was exiting with. *)
Theorem failed_restore_still_exits (e : env) (code : Z) (s : state) (err : Z) :
  handlers s = [fn_disableRawMode] ->
  tcsetattr_err e (n_set s) = Some err ->
  exists s',
    do_exit e code s = (Exited 1, s') /\
    trace s' = trace s ++ [EvTcsetattr (orig_termios s) false;
                            EvPerror "tcsetattr" err] /\
    tty s' = tty s.
Proof.
  intros Hh Hs.
  destruct (do_exit_restore e code s Hh) as (s' & Hex & Ht & _ & _ & _ & _ & Htr).
  rewrite Hs in Hex, Ht, Htr. exists s'. now repeat split.
Qed.

Lemma failed_restore_still_exits_witness :
  exists s',
    do_exit env_restore_fails 0
            (state_of (enableRawMode env_restore_fails (initial_state cooked)))
    = (Exited 1, s') /\
    stderr_of (trace s') = [("tcsetattr"%string, EIO)] /\
    tty s' = raw_termios cooked.
Proof.
  destruct (failed_restore_still_exits env_restore_fails 0
              (state_of (enableRawMode env_restore_fails (initial_state cooked)))
              EIO eq_refl eq_refl) as (s' & Hex & Htr & Ht).
  exists s'. split; [exact Hex|]. split; [| exact Ht].
  rewrite Htr. reflexivity.
Defined.

(** ** Reading a byte *)

(** The result of a byte read as the specification words it: a byte, nothing
    within the timeout, or a failed system call. *)
Inductive read_result : Type :=
| GotByte (b : Byte.byte)
| NoData
| SyscallFailed (err : Z).

(** The result the specification prescribes for what a read meets (nothing
    is prescribed for end of file or for a signal). *)
Definition spec_read_byte (r : stdin_event) : option read_result :=
  match r with
  | InByte b => Some (GotByte b)
  | InTimeout => Some NoData
  | InError err => Some (SyscallFailed err)
  | InEof | InSignal _ => None
  end.

Definition env_read_error : env :=
  env_ok (fun n => match n with O => InError EIO | _ => InByte Byte.x71 end).
Definition env_read_timeout : env :=
  env_ok (fun n => match n with O => InTimeout | _ => InByte Byte.x71 end).

(** C8, as amended: a read made in the loop leaves in [c] the byte that was
    delivered, and leaves [c] at NUL on a timeout, at end of file and on an
    I/O error alike; the result of [read] is not looked at, so that an error
    is not reported: the turn of the loop prints the line for [c] and goes on
    exactly as after a timeout. *)
Theorem read_into_c (e : env) (s : state) :
  is_signal (stdin e (n_read s)) = false ->
  (exists n s1,
      read e 0 s = Ret (n, char_read (stdin e (n_read s))) s1 /\
      n = match stdin e (n_read s) with
          | InByte _ => 1
          | InError _ => -1
          | _ => 0
          end) /\
  (forall b, char_read (InByte b) = char_of_byte b) /\
  char_read InTimeout = 0 /\ char_read InEof = 0 /\
  (forall err, char_read (InError err) = 0) /\
  (exists s',
      loop_body e s = Ret (is_quit (stdin e (n_read s))) s' /\
      stdout_of (trace s') =
        stdout_of (trace s) ++ [line_of (char_read (stdin e (n_read s)))] /\
      stderr_of (trace s') = stderr_of (trace s)).
Proof.
  intros Hsig. split; [| repeat (split; [reflexivity|])].
  - unfold read.
    destruct (stdin e (n_read s)) as [b | | | err | sig];
      try discriminate Hsig; eauto.
  - destruct (loop_body_returns e s Hsig) as (s' & Hb & _ & _ & Htr).
    exists s'. split; [exact Hb|].
    rewrite Htr, stdout_of_app, stderr_of_app. split; [reflexivity|].
    apply app_nil_r.
Qed.

Lemma read_into_c_witness :
  exists s',
    loop_body env_read_error (initial_state cooked) = Ret false s' /\
    stdout_of (trace s') = [line_of 0] /\
    stderr_of (trace s') = [].
Proof.
  destruct (read_into_c env_read_error (initial_state cooked) eq_refl)
    as (_ & _ & _ & _ & _ & s' & Hb & Hout & Herr).
  exists s'. split; [exact Hb|]. split; [exact Hout | exact Herr].
Defined.

(** C8 as written fails: an I/O error leaves the program with the same [c]
    as a timeout (and as a NUL byte), although the specification prescribes
    different results; the two runs print the same lines, report nothing on
    standard error and exit with the same status. *)
Lemma read_error_conflated :
  spec_read_byte (InError EIO) <> spec_read_byte InTimeout /\
  char_read (InError EIO) = char_read InTimeout /\
  char_read (InByte Byte.x00) = char_read InTimeout /\
  exists s1 s2,
    run env_read_error 2 cooked = Some (Exited 0, s1) /\
    run env_read_timeout 2 cooked = Some (Exited 0, s2) /\
    stdout_of (trace s1) = stdout_of (trace s2) /\
    stderr_of (trace s1) = [] /\ stderr_of (trace s2) = [].
Proof.
  split; [discriminate|]. split; [reflexivity|]. split; [reflexivity|].
  eexists. eexists. split; [vm_compute; reflexivity|].
  split; [vm_compute; reflexivity|]. repeat split; reflexivity.
Qed.

(** ** Registration of the exit handler *)

Lemma io_events_not_calls (evs : list event) (ev : event) :
  forallb is_io evs = true -> In ev evs -> is_io ev = true.
Proof.
  intros Hio Hin. rewrite forallb_forall in Hio. now apply Hio.
Qed.

(** C9: in every run, [disableRawMode] is registered after a successful
    [tcgetattr] and before the [tcsetattr] that applies the raw
    configuration, and nothing is registered when the capture fails; every
    [tcsetattr] made after that first one, whether the first one succeeded or
    failed, applies the configuration [A] that was captured, which is what
    [orig_termios] holds when the process ends. *)
Theorem restore_applies_captured (e : env) (fuel : nat) (A : termios)
        (o : outcome) (s : state) :
  run e fuel A = Some (o, s) ->
  (exists err, trace s = [EvTcgetattr false; EvPerror "tcgetattr" err]) \/
  (exists raw_ok rest,
      trace s = [EvTcgetattr true; EvAtexit fn_disableRawMode;
                 EvTcsetattr (raw_termios A) raw_ok] ++ rest /\
      orig_termios s = A /\
      (forall a ok, In (EvTcsetattr a ok) rest -> a = A) /\
      (forall h, ~ In (EvAtexit h) rest) /\
      (forall ok, ~ In (EvTcgetattr ok) rest)).
Proof.
  intros Hrun.
  assert (Hrestore : forall f ev, In ev (restore_events A f) ->
            (exists ok, ev = EvTcsetattr A ok) \/ (exists m x, ev = EvPerror m x)).
  { intros [err |] ev; cbn; intros [<- | [<- | []]] || intros [<- | []]; eauto. }
  destruct (run_shape e fuel A o s Hrun)
    as [err _ _ _ _ _ _ Htr | err _ _ _ _ Ho _ _ Htr
        | sig k evs _ _ _ _ _ _ _ Ho _ _ Hio Htr
        | k evs _ _ _ _ _ _ _ Ho _ _ Hio Htr].
  - left. eauto.
  - right. exists false. eexists. split; [exact Htr|]. split; [exact Ho|].
    repeat split.
    + intros a ok [Hev | Hev]; [discriminate Hev|].
      destruct (Hrestore _ _ Hev) as [(ok' & Heq) | (m & x & Heq)]; congruence.
    + intros h [Hev | Hev]; [discriminate Hev|].
      destruct (Hrestore _ _ Hev) as [(ok' & Heq) | (m & x & Heq)]; congruence.
    + intros ok [Hev | Hev]; [discriminate Hev|].
      destruct (Hrestore _ _ Hev) as [(ok' & Heq) | (m & x & Heq)]; congruence.
  - assert (Hio' : forallb is_io (evs ++ [EvRead (InSignal sig)]) = true)
      by (rewrite forallb_app, Hio; reflexivity).
    right. exists true. eexists. split; [exact Htr|]. split; [exact Ho|].
    repeat split.
    + intros a ok Hev. now apply (io_events_not_calls _ _ Hio') in Hev.
    + intros h Hev. now apply (io_events_not_calls _ _ Hio') in Hev.
    + intros ok Hev. now apply (io_events_not_calls _ _ Hio') in Hev.
  - set (io := evs ++ [EvRead (InByte Byte.x71); EvPrintf (line_of 113)]) in *.
    assert (Hio' : forallb is_io io = true)
      by (unfold io; rewrite forallb_app, Hio; reflexivity).
    right. exists true. eexists. split; [exact Htr|]. split; [exact Ho|].
    repeat split.
    + intros a ok Hev. apply in_app_or in Hev as [Hev | Hev].
      * now apply (io_events_not_calls _ _ Hio') in Hev.
      * destruct (Hrestore _ _ Hev) as [(ok' & Heq) | (m & x & Heq)]; congruence.
    + intros h Hev. apply in_app_or in Hev as [Hev | Hev].
      * now apply (io_events_not_calls _ _ Hio') in Hev.
      * destruct (Hrestore _ _ Hev) as [(ok' & Heq) | (m & x & Heq)]; congruence.
    + intros ok Hev. apply in_app_or in Hev as [Hev | Hev].
      * now apply (io_events_not_calls _ _ Hio') in Hev.
      * destruct (Hrestore _ _ Hev) as [(ok' & Heq) | (m & x & Heq)]; congruence.
Qed.

Lemma restore_applies_captured_witness :
  exists s,
    run env_raw_fails 0 cooked = Some (Exited 1, s) /\
    tcsetattr_calls (trace s) = [(raw_termios cooked, false); (cooked, true)] /\
    orig_termios s = cooked.
Proof.
  eexists. split; [vm_compute; reflexivity|].
  split; [reflexivity|].
  destruct (restore_applies_captured env_raw_fails 0 cooked (Exited 1) _ eq_refl)
    as [(err & Htr) | (raw_ok & rest & _ & Ho & _)];
    [discriminate Htr | exact Ho].
Defined.

(** ** The main loop *)

(** C10: a turn of the loop whose read meets a timeout, end of file or an
    error leaves [c] at 0, prints [0] and goes on; a turn ends the loop
    exactly when the byte read is [q]; the loop never calls [exit], returns
    only after a read that delivered [q], does return then, and is still
    running as long as no read has delivered [q] (or a signal has ended the
    process). *)
Theorem loop_ends_only_on_quit (e : env) (s : state) :
  (stdin e (n_read s) = InTimeout \/ stdin e (n_read s) = InEof \/
   (exists err, stdin e (n_read s) = InError err) ->
   char_read (stdin e (n_read s)) = 0 /\
   exists s',
     loop_body e s = Ret false s' /\
     trace s' = trace s ++ [EvRead (stdin e (n_read s));
                             EvPrintf ("0" ++ CRLF)]) /\
  (forall s', loop_body e s = Ret true s' ->
              stdin e (n_read s) = InByte Byte.x71) /\
  (stdin e (n_read s) = InByte Byte.x71 ->
   exists s', loop_body e s = Ret true s') /\
  (forall fuel r,
      main_loop e fuel s = Some r ->
      exists k : nat,
        (k < fuel)%nat /\ keeps_looping e (n_read s) k /\
        match r with
        | Ret _ _ => stdin e (n_read s + k) = InByte Byte.x71
        | Kill sig _ => stdin e (n_read s + k) = InSignal sig
        | Exit _ _ => False
        end) /\
  (forall fuel, keeps_looping e (n_read s) fuel -> main_loop e fuel s = None) /\
  (forall k fuel,
      (k < fuel)%nat -> keeps_looping e (n_read s) k ->
      stdin e (n_read s + k) = InByte Byte.x71 ->
      exists s', main_loop e fuel s = Some (Ret tt s')).
Proof.
  repeat match goal with |- _ /\ _ => split end.
  - intros Hr.
    assert (Hc : char_read (stdin e (n_read s)) = 0)
      by (destruct Hr as [-> | [-> | (err & ->)]]; reflexivity).
    assert (Hsig : is_signal (stdin e (n_read s)) = false)
      by (destruct Hr as [-> | [-> | (err & ->)]]; reflexivity).
    split; [exact Hc|].
    destruct (loop_body_returns e s Hsig) as (s' & Hb & _ & _ & Htr).
    exists s'. unfold is_quit in Hb. rewrite Hc in Hb, Htr.
    split; [exact Hb | exact Htr].
  - intros s' Hb.
    destruct (is_signal (stdin e (n_read s))) eqn:Hsig.
    + destruct (stdin e (n_read s)) as [b | | | err | sig] eqn:Hin;
        try discriminate Hsig.
      destruct (loop_body_signal e s sig Hin) as (s1 & Hk & _). congruence.
    + destruct (loop_body_returns e s Hsig) as (s1 & Hb1 & _).
      apply is_quit_iff. congruence.
  - intros Hin.
    assert (Hsig : is_signal (stdin e (n_read s)) = false)
      by (rewrite Hin; reflexivity).
    destruct (loop_body_returns e s Hsig) as (s1 & Hb1 & _).
    rewrite Hin in Hb1. eauto.
  - intros fuel r Hrun.
    destruct (main_loop_sound e fuel s r Hrun)
      as (k & evs & Hk & _ & _ & _ & _ & Hkeep & Hend).
    exists k. split; [exact Hk|]. split; [exact Hkeep|].
    destruct r as [u s' | code s' | sig s']; cbn [loop_end] in Hend; tauto.
  - intros fuel. apply main_loop_running.
  - intros k fuel Hk Hkeep Hin.
    assert (Hend : is_quit (stdin e (n_read s + k)) ||
                   is_signal (stdin e (n_read s + k)) = true)
      by (rewrite Hin; reflexivity).
    destruct (main_loop_terminates e k s fuel Hk Hkeep Hend) as (r & Hrun).
    destruct (main_loop_sound e fuel s r Hrun)
      as (k' & evs & _ & _ & _ & _ & _ & Hkeep' & Hend').
    destruct r as [[] s' | code s' | sig s']; cbn [loop_end] in Hend';
      [eauto | contradiction |].
    destruct Hend' as (Hin' & _).
    assert (k = k').
    { apply (first_end_unique e (n_read s)); try assumption.
      rewrite Hin'. reflexivity. }
    congruence.
Qed.

Lemma loop_ends_only_on_quit_witness :
  (exists s',
      loop_body env_read_timeout (initial_state cooked) = Ret false s' /\
      stdout_of (trace s') = [("0" ++ CRLF)%string]) /\
  main_loop env_read_timeout 1 (initial_state cooked) = None /\
  (exists s', main_loop env_read_timeout 2 (initial_state cooked)
              = Some (Ret tt s')).
Proof.
  pose proof (loop_ends_only_on_quit env_read_timeout (initial_state cooked))
    as (Hzero & _ & _ & _ & Hrunning & Hquit).
  split; [| split].
  - destruct Hzero as (_ & s' & Hb & Htr); [left; reflexivity|].
    exists s'. split; [exact Hb|]. rewrite Htr. reflexivity.
  - apply Hrunning. intros [| j] Hj; [split; reflexivity | lia].
  - apply (Hquit 1%nat 2%nat); [lia | | reflexivity].
    intros [| j] Hj; [split; reflexivity | lia].
Defined.

(** * Further properties of the code *)

(** ** The raw configuration, continued *)


Lemma and_not_idem (f m : Z) : and_not (and_not f m) m = and_not f m.
Proof.
  apply Z.bits_inj'. intros i Hi. rewrite !testbit_and_not by lia.
  destruct (i <? 32), (Z.testbit f i), (Z.testbit m i); reflexivity.
Qed.

Lemma or_in_idem (f m : Z) : or_in (or_in f m) m = or_in f m.
Proof.
  apply Z.bits_inj'. intros i Hi. rewrite !testbit_or_in by lia.
  destruct (i <? 32), (Z.testbit f i), (Z.testbit m i); reflexivity.
Qed.

(** Clearing a mask none of whose bits is set changes nothing. *)
Lemma and_not_id (f m : Z) :
  is_u32 f = true -> Z.land f m = 0 -> and_not f m = f.
Proof.
  intros Hf Hm. apply Z.bits_inj'. intros i Hi.
  rewrite testbit_and_not by lia.
  assert (Hbit : Z.testbit f i && Z.testbit m i = false)
    by (rewrite <- Z.land_spec, Hm; apply Z.bits_0).
  destruct (Z.ltb_spec i 32) as [Hlt | Hge]; cbn [andb].
  - destruct (Z.testbit f i), (Z.testbit m i); try reflexivity; discriminate.
  - symmetry. now apply u32_high_bits.
Qed.

Lemma flag_on_false (f k : Z) : flag_on f k = false <-> Z.land f k = 0.
Proof. unfold flag_on. now rewrite negb_false_iff, Z.eqb_eq. Qed.

Lemma land_lor_0 (f a b : Z) :
  Z.land f a = 0 -> Z.land f b = 0 -> Z.land f (Z.lor a b) = 0.
Proof. intros Ha Hb. now rewrite Z.land_lor_distr_r, Ha, Hb. Qed.

(** A character size of 8 means that both CSIZE bits are set. *)
Lemma char_size_8_bits (c : Z) :
  5 + Z.shiftr (Z.land c CSIZE) 4 = 8 ->
  Z.testbit c 4 = true /\ Z.testbit c 5 = true.
Proof.
  intros H. assert (H3 : Z.shiftr (Z.land c CSIZE) 4 = 3) by lia.
  split.
  - pose proof (Z.shiftr_spec (Z.land c CSIZE) 4 0 ltac:(lia)) as Hb.
    rewrite H3, Z.land_spec in Hb. cbn in Hb.
    symmetry in Hb. now apply andb_true_iff in Hb.
  - pose proof (Z.shiftr_spec (Z.land c CSIZE) 4 1 ltac:(lia)) as Hb.
    rewrite H3, Z.land_spec in Hb. cbn in Hb.
    symmetry in Hb. now apply andb_true_iff in Hb.
Qed.

Lemma or_in_CS8_id (c : Z) :
  is_u32 c = true -> Z.testbit c 4 = true -> Z.testbit c 5 = true ->
  or_in c CS8 = c.
Proof.
  intros Hc H4 H5. apply Z.bits_inj'. intros i Hi.
  rewrite testbit_or_in by lia.
  change CS8 with (Z.lor (2 ^ 4) (2 ^ 5)).
  rewrite Z.lor_spec, !Z.pow2_bits_eqb by lia.
  destruct (Z.ltb_spec i 32) as [Hlt | Hge]; cbn [andb].
  - destruct (Z.eqb_spec 4 i) as [<- | _]; [now rewrite H4|].
    destruct (Z.eqb_spec 5 i) as [<- | _]; [now rewrite H5|].
    now rewrite !orb_false_r.
  - symmetry. now apply u32_high_bits.
Qed.


(** [raw_termios] field by field. *)
Lemma raw_termios_eq (A : termios) :
  raw_termios A =
  mk_termios (and_not (c_iflag A) cleared_iflags)
             (and_not (c_oflag A) OPOST)
             (or_in (c_cflag A) CS8)
             (and_not (c_lflag A)
                      (Z.lor (Z.lor (Z.lor ECHO ICANON) IEXTEN) ISIG))
             (c_line A)
             (<[VTIME := 1]> (<[VMIN := 0]> (c_cc A)))
             (c_ispeed A) (c_ospeed A).
Proof. reflexivity. Qed.

(** X1: building the raw configuration from a configuration that is already
    the raw one of some [A] gives the same configuration again. *)
Theorem raw_termios_idempotent (A : termios) :
  raw_termios (raw_termios A) = raw_termios A.
Proof.
  rewrite (raw_termios_eq (raw_termios A)), !(raw_termios_eq A).
  cbn [c_iflag c_oflag c_cflag c_lflag c_line c_cc c_ispeed c_ospeed].
  rewrite !and_not_idem, or_in_idem. f_equal.
  generalize (c_cc A) as cc. intros cc.
  repeat (destruct cc as [| ? cc]; try reflexivity).
Qed.



(** X3: for a well-formed [A], the raw configuration is [A] itself exactly
    when [A] already has every raw setting and BRKINT off. *)
Theorem raw_termios_fixed_point (A : termios) :
  termios_wf A = true ->
  (raw_termios A = A <->
   raw_settings A /\ break_int_enabled A = false).
Proof.
  intros Hwf. split.
  - intros Heq. split.
    + rewrite <- Heq. now apply raw_termios_settings.
    + rewrite <- Heq. unfold break_int_enabled. cbn.
      apply flag_off_and_not. reflexivity.
  - intros ((He & Hcan & Hsig & Hxon & Hext & Hcr & Hpost & Hpck & Hstrip &
             Hsize & Hmin & Htime) & Hbrk).
    apply termios_wf_fields in Hwf as (Hi & Ho & Hc & Hl & Hlen).
    unfold echo_enabled, canonical_enabled, signals_enabled,
      flow_control_enabled, extended_enabled, crnl_enabled, post_enabled,
      parity_check_enabled, strip_enabled, break_int_enabled, char_size,
      min_bytes, read_timeout in *.
    rewrite flag_on_false in *.
    destruct (char_size_8_bits _ Hsize) as [H4 H5].
    destruct A as [fi fo fc fl line cc isp osp].
    cbn [c_iflag c_oflag c_cflag c_lflag c_cc] in *.
    rewrite raw_termios_eq.
    cbn [c_iflag c_oflag c_cflag c_lflag c_line c_cc c_ispeed c_ospeed].
    unfold cleared_iflags.
    rewrite (and_not_id fi), (and_not_id fo), (and_not_id fl),
      (or_in_CS8_id fc); try assumption;
      repeat apply land_lor_0; try assumption.
    f_equal.
    rewrite (list_insert_id cc VMIN 0 Hmin). now apply list_insert_id.
Qed.

Lemma raw_termios_fixed_point_witness :
  raw_termios (raw_termios cooked) = raw_termios cooked <->
  raw_settings (raw_termios cooked) /\
  break_int_enabled (raw_termios cooked) = false.
Proof.
  apply (raw_termios_fixed_point (raw_termios cooked)). reflexivity.
Defined.

(** ** enableRawMode and disableRawMode, continued *)

(** X4: how [enableRawMode] fails.  A failed capture leaves the terminal,
    [orig_termios] and the registered functions as they were.  A failed apply
    leaves the terminal as it was too, but by then [orig_termios] holds the
    capture and [disableRawMode] is registered. *)
Theorem enableRawMode_failure (e : env) (s : state) :
  (forall err,
      tcgetattr_err e = Some err ->
      exists s',
        enableRawMode e s = Exit 1 s' /\
        tty s' = tty s /\ orig_termios s' = orig_termios s /\
        handlers s' = handlers s /\
        stderr_of (trace s') = stderr_of (trace s) ++ [("tcgetattr"%string, err)]) /\
  (forall err,
      tcgetattr_err e = None -> tcsetattr_err e (n_set s) = Some err ->
      exists s',
        enableRawMode e s = Exit 1 s' /\
        tty s' = tty s /\ orig_termios s' = tty s /\
        handlers s' = fn_disableRawMode :: handlers s /\
        stderr_of (trace s') = stderr_of (trace s) ++ [("tcsetattr"%string, err)]).
Proof.
  split.
  - intros err Hg.
    destruct (enableRawMode_capture_fails e s err Hg)
      as (s' & Hen & (Ht & Ho & Hh & _) & _ & Htr).
    exists s'. rewrite Htr, stderr_of_app. now repeat split.
  - intros err Hg Hs.
    destruct (enableRawMode_apply_fails e s err Hg Hs)
      as (s' & Hen & Ht & Ho & Hh & _ & _ & Htr).
    exists s'. rewrite Htr, stderr_of_app. now repeat split.
Qed.

Lemma enableRawMode_failure_witness :
  (exists s',
      enableRawMode env_not_a_tty (initial_state cooked) = Exit 1 s' /\
      tty s' = cooked /\ orig_termios s' = termios_zero /\ handlers s' = []) /\
  (exists s',
      enableRawMode env_raw_fails (initial_state cooked) = Exit 1 s' /\
      tty s' = cooked /\ orig_termios s' = cooked /\
      handlers s' = [fn_disableRawMode]).
Proof.
  pose proof (enableRawMode_failure env_not_a_tty (initial_state cooked))
    as [H1 _].
  pose proof (enableRawMode_failure env_raw_fails (initial_state cooked))
    as [_ H2].
  split.
  - destruct (H1 ENOTTY eq_refl) as (s' & Hen & Ht & Ho & Hh & _).
    exists s'. now repeat split.
  - destruct (H2 EIO eq_refl eq_refl) as (s' & Hen & Ht & Ho & Hh & _).
    exists s'. now repeat split.
Defined.

(** X5: [enableRawMode] called a second time, in raw mode, stores the raw
    configuration as the original and registers [disableRawMode] once more;
    the restore that follows then leaves the terminal in raw mode. *)
Theorem second_enable_loses_original (e : env) (s : state) :
  tcgetattr_err e = None ->
  tcsetattr_err e (n_set s) = None ->
  tcsetattr_err e (S (n_set s)) = None ->
  tcsetattr_err e (S (S (n_set s))) = None ->
  exists s1 s2 s3,
    enableRawMode e s = Ret tt s1 /\
    enableRawMode e s1 = Ret tt s2 /\
    orig_termios s2 = raw_termios (tty s) /\
    handlers s2 = fn_disableRawMode :: fn_disableRawMode :: handlers s /\
    disableRawMode e s2 = Ret tt s3 /\
    tty s3 = raw_termios (tty s).
Proof.
  intros Hg H0 H1 H2.
  destruct (enableRawMode_succeeds e s Hg H0)
    as (s1 & Hen1 & Ht1 & Ho1 & Hh1 & Hn1 & _).
  rewrite <- Hn1 in H1, H2.
  destruct (enableRawMode_succeeds e s1 Hg H1)
    as (s2 & Hen2 & Ht2 & Ho2 & Hh2 & Hn2 & _).
  rewrite <- Hn2 in H2.
  destruct (disableRawMode_succeeds e s2 H2) as (s3 & Hdis & Ht3 & _).
  exists s1, s2, s3. repeat split; try assumption; congruence.
Qed.

Lemma second_enable_loses_original_witness :
  exists s1 s2 s3,
    enableRawMode (env_ok type_aq) (initial_state cooked) = Ret tt s1 /\
    enableRawMode (env_ok type_aq) s1 = Ret tt s2 /\
    orig_termios s2 = raw_termios cooked /\
    handlers s2 = [fn_disableRawMode; fn_disableRawMode] /\
    disableRawMode (env_ok type_aq) s2 = Ret tt s3 /\
    tty s3 = raw_termios cooked.
Proof.
  exact (second_enable_loses_original (env_ok type_aq) (initial_state cooked)
           eq_refl eq_refl eq_refl eq_refl).
Defined.

(** ** The loop, continued *)

(** X6: however the loop ends, it has made no [tcsetattr] call, has written
    nothing to standard error, and has left the terminal attributes,
    [orig_termios] and the registered functions as they were. *)
Theorem loop_leaves_terminal_alone (e : env) (fuel : nat) (s : state)
        (r : res unit) :
  main_loop e fuel s = Some r ->
  tty (state_of r) = tty s /\
  orig_termios (state_of r) = orig_termios s /\
  handlers (state_of r) = handlers s /\
  tcsetattr_calls (trace (state_of r)) = tcsetattr_calls (trace s) /\
  tcgetattr_calls (trace (state_of r)) = tcgetattr_calls (trace s) /\
  stderr_of (trace (state_of r)) = stderr_of (trace s).
Proof.
  intros Hrun.
  destruct (main_loop_sound e fuel s r Hrun)
    as (k & evs & _ & (Ht & Ho & Hh & _) & _ & Htr & Hio & _).
  rewrite Htr, tcsetattr_calls_app, tcgetattr_calls_app, stderr_of_app.
  rewrite (io_no_tcsetattr _ Hio), (io_no_tcgetattr _ Hio),
    (io_no_stderr _ Hio), !app_nil_r, Nat.add_0_r.
  now repeat split.
Qed.

Lemma loop_leaves_terminal_alone_witness :
  exists r,
    main_loop env_read_error 2 (initial_state cooked) = Some r /\
    tty (state_of r) = cooked /\
    stderr_of (trace (state_of r)) = [].
Proof.
  destruct (main_loop env_read_error 2 (initial_state cooked)) as [r |] eqn:Hrun;
    [| vm_compute in Hrun; discriminate Hrun].
  destruct (loop_leaves_terminal_alone env_read_error 2 (initial_state cooked)
              r Hrun) as (Ht & _ & _ & _ & _ & Herr).
  exists r. split; [reflexivity|]. split; [exact Ht | exact Herr].
Defined.


(** The lines printed by the turns for reads [n], ..., [n + k - 1]. *)
Definition lines_of (e : env) (n k : nat) : list string :=
  map (fun j => line_of (char_read (stdin e j))) (seq n k).

Lemma lines_of_S (e : env) (n k : nat) :
  lines_of e n (S k) = line_of (char_read (stdin e n)) :: lines_of e (S n) k.
Proof. reflexivity. Qed.


(** ** Whole runs, continued *)




(** X8: a process that exits does so with status 0 or 1, and with status 0
    exactly when nothing was written to standard error; a process killed by
    a signal has written nothing there. *)
Theorem status_reflects_failure (e : env) (fuel : nat) (A : termios)
        (o : outcome) (s : state) :
  run e fuel A = Some (o, s) ->
  match o with
  | Exited code =>
      (code = 0 \/ code = 1) /\ (code = 0 <-> stderr_of (trace s) = [])
  | Killed _ => stderr_of (trace s) = []
  end.
Proof.
  intros Hrun.
  destruct (run_shape e fuel A o s Hrun)
    as [err _ -> _ _ _ _ Htr | err _ _ -> _ _ _ _ Htr
        | sig k evs _ _ _ _ _ -> _ _ _ _ Hio Htr
        | k evs _ _ _ _ _ -> _ _ _ _ Hio Htr].
  - rewrite Htr. cbn. split; [now right|]. split; intros H; discriminate H.
  - rewrite Htr, !stderr_of_app. cbn.
    split; [now right|]. split; intros H; discriminate H.
  - rewrite Htr, !stderr_of_app, (io_no_stderr _ Hio). reflexivity.
  - rewrite Htr, !stderr_of_app, (io_no_stderr _ Hio), stderr_of_restore.
    destruct (tcsetattr_err e 1%nat) as [err |]; cbn.
    + split; [now right|]. split; intros H; discriminate H.
    + split; [now left|]. split; reflexivity.
Qed.

Lemma status_reflects_failure_witness :
  exists s,
    run env_restore_fails 1 cooked = Some (Exited 1, s) /\
    (1 = 0 <-> stderr_of (trace s) = []).
Proof.
  eexists. split; [vm_compute; reflexivity|].
  refine (proj2 (status_reflects_failure env_restore_fails 1 cooked (Exited 1)
                   _ _)).
  vm_compute. reflexivity.
Defined.

(** X9: a process that exits with status 0 leaves the terminal with the
    attributes it found.  The terminal is left with other attributes only
    with the raw ones, and only when the process was killed by a signal or
    the restore made at exit failed and was reported. *)
Theorem terminal_after_run (e : env) (fuel : nat) (A : termios)
        (o : outcome) (s : state) :
  run e fuel A = Some (o, s) ->
  (o = Exited 0 -> tty s = A) /\
  (tty s <> A ->
   tty s = raw_termios A /\
   ((exists sig, o = Killed sig) \/
    (o = Exited 1 /\
     exists err, stderr_of (trace s) = [("tcsetattr"%string, err)]))).
Proof.
  intros Hrun.
  destruct (run_shape e fuel A o s Hrun)
    as [err _ -> Ht _ _ _ Htr | err _ _ -> Ht _ _ _ Htr
        | sig k evs _ _ _ _ _ -> Ht _ _ _ Hio Htr
        | k evs _ _ _ _ _ -> Ht _ _ _ Hio Htr].
  - split; [intros _; exact Ht | intros Hne; contradiction].
  - split; [intros _; exact Ht | intros Hne; contradiction].
  - split; [intros H; discriminate H|]. intros _. split; [exact Ht|].
    left. eauto.
  - destruct (tcsetattr_err e 1%nat) as [err |] eqn:Hr;
      cbn [status_after_restore] in *.
    + split; [intros H; discriminate H|]. intros _. split; [exact Ht|].
      right. split; [reflexivity|]. exists err.
      rewrite Htr, !stderr_of_app, (io_no_stderr _ Hio). reflexivity.
    + split; [intros _; exact Ht | intros Hne; contradiction].
Qed.

Lemma terminal_after_run_witness :
  exists s,
    run (env_ok type_aq) 5 cooked = Some (Exited 0, s) /\ tty s = cooked.
Proof.
  eexists. split; [vm_compute; reflexivity|].
  refine (proj1 (terminal_after_run (env_ok type_aq) 5 cooked (Exited 0)
                   _ _) eq_refl).
  vm_compute. reflexivity.
Defined.



(** X11: every diagnostic on standard error names a call that did fail in
    this run, with the error number of that call: [tcgetattr], or one of the
    two [tcsetattr] calls.  Errors of [read] are never among them. *)
Theorem diagnostics_truthful (e : env) (fuel : nat) (A : termios)
        (o : outcome) (s : state) (msg : string) (err : Z) :
  run e fuel A = Some (o, s) ->
  In (msg, err) (stderr_of (trace s)) ->
  (msg = "tcgetattr"%string /\ tcgetattr_err e = Some err) \/
  (msg = "tcsetattr"%string /\
   (tcsetattr_err e 0%nat = Some err \/ tcsetattr_err e 1%nat = Some err)).
Proof.
  intros Hrun Hin.
  assert (Hrestore : In (msg, err) (restore_diagnostic (tcsetattr_err e 1%nat)) ->
                     msg = "tcsetattr"%string /\ tcsetattr_err e 1%nat = Some err).
  { destruct (tcsetattr_err e 1%nat) as [err' |]; cbn; [| tauto].
    intros [H | []]. injection H as <- <-. now split. }
  destruct (run_shape e fuel A o s Hrun)
    as [err' Hg _ _ _ _ _ Htr | err' _ Hs _ _ _ _ _ Htr
        | sig k evs _ _ _ _ _ _ _ _ _ _ Hio Htr
        | k evs _ _ _ _ _ _ _ _ _ _ Hio Htr];
    rewrite Htr, ?stderr_of_app, ?stderr_of_restore, ?(io_no_stderr _ Hio) in Hin;
    cbn in Hin.
  - destruct Hin as [H | []]. injection H as <- <-. left. now split.
  - destruct Hin as [H | Hin].
    + injection H as <- <-. right. split; [reflexivity | now left].
    + apply Hrestore in Hin as [-> Hin]. right. split; [reflexivity | now right].
  - contradiction.
  - apply Hrestore in Hin as [-> Hin]. right. split; [reflexivity | now right].
Qed.

Lemma diagnostics_truthful_witness :
  ("tcsetattr"%string = "tcgetattr"%string /\
   tcgetattr_err env_restore_fails = Some EIO) \/
  ("tcsetattr"%string = "tcsetattr"%string /\
   (tcsetattr_err env_restore_fails 0%nat = Some EIO \/
    tcsetattr_err env_restore_fails 1%nat = Some EIO)).
Proof.
  destruct (run env_restore_fails 1 cooked) as [[o s] |] eqn:Hrun;
    [| vm_compute in Hrun; discriminate Hrun].
  refine (diagnostics_truthful env_restore_fails 1 cooked o s
            "tcsetattr" EIO Hrun _).
  vm_compute in Hrun. injection Hrun as _ <-. vm_compute. now left.
Defined.

Lemma disableRawMode_handlers (e : env) (s : state) :
  handlers (state_of (disableRawMode e s)) = handlers s.
Proof.
  destruct (tcsetattr_err e (n_set s)) as [err |] eqn:Hs.
  - destruct (disableRawMode_fails e s err Hs) as (s' & -> & _ & _ & Hh & _).
    exact Hh.
  - destruct (disableRawMode_succeeds e s Hs) as (s' & -> & _ & _ & Hh & _).
    exact Hh.
Qed.

Lemma run_exit_handlers_done (e : env) (hs : list handler) :
  forall (code : Z) (s : state) (o : outcome) (s' : state),
    handlers s = hs ->
    run_exit_handlers e hs code s = (o, s') ->
    handlers s' = [] /\ exists c, o = Exited c.
Proof.
  induction hs as [| h hs IH]; intros code s o s' Hh Hrun; cbn in Hrun.
  - injection Hrun as <- <-. eauto.
  - destruct h. cbn [call_handler] in Hrun.
    pose proof (disableRawMode_handlers e (set_handlers hs s)) as Hh'.
    destruct (disableRawMode e (set_handlers hs s)) as [u s1 | c1 s1 | g1 s1] eqn:Hd;
      cbn [state_of set_handlers handlers] in Hh'.
    + now apply (IH code s1).
    + now apply (IH c1 s1).
    + exfalso. unfold disableRawMode, tcsetattr, when, die, perror, exit,
        gets, bind, ret in Hd.
      destruct (tcsetattr_err e (n_set (set_handlers hs s))); discriminate Hd.
Qed.

(** X12: in every finished run [tcsetattr] is called at most twice, once by
    [enableRawMode] and at most once by the registered [disableRawMode],
    which therefore runs at most once; nothing stays registered when the
    process exits. *)
Theorem restore_runs_at_most_once (e : env) (fuel : nat) (A : termios)
        (o : outcome) (s : state) :
  run e fuel A = Some (o, s) ->
  (length (tcsetattr_calls (trace s)) <= 2)%nat /\
  (forall code, o = Exited code -> handlers s = []).
Proof.
  intros Hrun.
  assert (Hhandlers : forall code, o = Exited code -> handlers s = []).
  { intros code ->. unfold run in Hrun.
    destruct (main e fuel (initial_state A)) as [[c s1 | c s1 | g s1] |];
      try discriminate Hrun; injection Hrun as Hrun;
      now apply (run_exit_handlers_done e _ c s1 _ _ eq_refl) in Hrun. }
  split; [| exact Hhandlers].
  destruct (run_shape e fuel A o s Hrun)
    as [err _ _ _ _ _ _ Htr | err _ _ _ _ _ _ _ Htr
        | sig k evs _ _ _ _ _ _ _ _ _ _ Hio Htr
        | k evs _ _ _ _ _ _ _ _ _ _ Hio Htr];
    rewrite Htr, ?tcsetattr_calls_app, ?tcsetattr_calls_restore,
      ?(io_no_tcsetattr _ Hio); cbn; lia.
Qed.

Lemma restore_runs_at_most_once_witness :
  exists s,
    run env_raw_fails 0 cooked = Some (Exited 1, s) /\
    length (tcsetattr_calls (trace s)) = 2%nat /\ handlers s = [].
Proof.
  eexists. split; [vm_compute; reflexivity|]. split; [reflexivity|].
  refine (proj2 (restore_runs_at_most_once env_raw_fails 0 cooked
                   (Exited 1) _ _) 1 eq_refl).
  vm_compute. reflexivity.
Defined.
